(** * A documentation-generation proxy: shallow embedding of [app.py]

    The program is a small Flask backend.  [generate_docs] validates the
    posted payload, builds a prompt, picks one of two text-generation
    providers from the credentials found in the process environment and
    turns the provider's [(ok, text)] pair into an HTTP response.
    [call_huggingface] posts to the inference router and, on a 404, walks
    a list of fallback models; [call_openai] goes through the optional
    chat-completion client.

    Python values are embedded as the inductive type [value]; exceptions
    and the log of outbound calls are threaded by a small monad [M]; the
    outside world (the HTTP layer, the optional SDK, the environment) is a
    record of oracles whose answers may depend on the calls made so far. *)

From Stdlib Require Import ZArith Ascii String DecimalString Lia.
From stdpp Require Import base option list strings gmap.

Local Open Scope string_scope.
Local Open Scope Z_scope.

(** ** Python values *)

(** A float is observed by the program only through [bool(x)] and
    [repr(x)]; it is carried as these two observations. *)
Record pyfloat : Type := mk_float {
  float_truth : bool;
  float_repr : string
}.

#[local] Set Warnings "-register-all".

(** What [resp.json()] and [request.json] can produce.  A [str] is a
    sequence of code points below 256; a [dict] keeps its insertion order
    and is looked up by its first matching key. *)
Inductive value : Type :=
| VNone
| VBool (b : bool)
| VInt (z : Z)
| VFloat (f : pyfloat)
| VStr (s : string)
| VList (l : list value)
| VDict (d : list (string * value)).

Module Py.

(** *** Characters and text *)

Definition chr (n : nat) : ascii := ascii_of_nat n.
Definition ord (c : ascii) : nat := nat_of_ascii c.

Definition squote : ascii := chr 39.
Definition dquote : ascii := chr 34.
Definition backslash : ascii := chr 92.
Definition newline : string := String (chr 10) EmptyString.

Definition hex_digit (n : nat) : ascii :=
  if (n <? 10)%nat then chr (48 + n) else chr (87 + n).

(** [\xhh], two lower-case hexadecimal digits. *)
Definition hex_escape (c : ascii) : string :=
  String backslash
    (String "x"
       (String (hex_digit (ord c / 16))
          (String (hex_digit (ord c mod 16)) EmptyString))).

(** [str.isprintable] on one code point of the Latin-1 range. *)
Definition isprintable (c : ascii) : bool :=
  let n := ord c in
  if (n <? 32)%nat then false
  else if (n <? 127)%nat then true
  else if (n <? 161)%nat then false
  else negb (n =? 173)%nat.

Fixpoint contains_char (c : ascii) (s : string) : bool :=
  match s with
  | EmptyString => false
  | String a s' => if Ascii.eqb a c then true else contains_char c s'
  end.

Definition repr_char (quote c : ascii) : string :=
  if Ascii.eqb c quote || Ascii.eqb c backslash
  then String backslash (String c EmptyString)
  else if (ord c =? 9)%nat then String backslash "t"
  else if (ord c =? 10)%nat then String backslash "n"
  else if (ord c =? 13)%nat then String backslash "r"
  else if isprintable c then String c EmptyString
  else hex_escape c.

Fixpoint repr_chars (quote : ascii) (s : string) : string :=
  match s with
  | EmptyString => EmptyString
  | String c s' => repr_char quote c +:+ repr_chars quote s'
  end.

(** [repr(s)] for a [str]: single quotes, unless the text holds a single
    quote and no double quote. *)
Definition repr_str (s : string) : string :=
  let quote :=
    if contains_char squote s && negb (contains_char dquote s)
    then dquote else squote in
  String quote (repr_chars quote s +:+ String quote EmptyString).

(** [str(n)] for an [int]. *)
Definition str_int (z : Z) : string := NilZero.string_of_int (Z.to_int z).

(** [sep.join(parts)] *)
Fixpoint join (sep : string) (parts : list string) : string :=
  match parts with
  | [] => EmptyString
  | [p] => p
  | p :: ps => p +:+ sep +:+ join sep ps
  end.

(** [repr(v)] *)
Fixpoint repr (v : value) : string :=
  match v with
  | VNone => "None"
  | VBool true => "True"
  | VBool false => "False"
  | VInt z => str_int z
  | VFloat f => float_repr f
  | VStr s => repr_str s
  | VList l => "[" +:+ join ", " (List.map repr l) +:+ "]"
  | VDict d =>
      "{" +:+
      join ", "
        (List.map (fun kv => repr_str (fst kv) +:+ ": " +:+ repr (snd kv)) d)
      +:+ "}"
  end.

(** [str(v)], also what an f-string field [{v}] prints. *)
Definition str (v : value) : string :=
  match v with
  | VStr s => s
  | _ => repr v
  end.

(** [bool(v)], the test behind [if not v]. *)
Definition truthy (v : value) : bool :=
  match v with
  | VNone => false
  | VBool b => b
  | VInt z => negb (Z.eqb z 0)
  | VFloat f => float_truth f
  | VStr s => negb (String.eqb s EmptyString)
  | VList l => negb (Nat.eqb (List.length l) 0)
  | VDict d => negb (Nat.eqb (List.length d) 0)
  end.

(** [type(v).__name__] *)
Definition type_name (v : value) : string :=
  match v with
  | VNone => "NoneType"
  | VBool _ => "bool"
  | VInt _ => "int"
  | VFloat _ => "float"
  | VStr _ => "str"
  | VList _ => "list"
  | VDict _ => "dict"
  end.

(** *** Exceptions *)

(** Every exception of the model is an [Exception], so [except Exception]
    catches all of them.  [Error] stands for what a library raises
    (requests, Flask, the chat client, the JSON decoder), carried by its
    message. *)
Inductive exn : Type :=
| TypeError (msg : string)
| KeyError (key : value)
| IndexError (msg : string)
| AttributeError (msg : string)
| Error (msg : string).

(** [str(e)] *)
Definition str_exn (e : exn) : string :=
  match e with
  | KeyError k => repr k
  | TypeError m | IndexError m | AttributeError m | Error m => m
  end.

(** An evaluation either yields a value or raises. *)
Inductive res (A : Type) : Type :=
| Ret (a : A)
| Raise (e : exn).
Arguments Ret {A} a.
Arguments Raise {A} e.

(** *** Dynamically typed operations *)

Definition isinstance_list (v : value) : bool :=
  match v with VList _ => true | _ => false end.

Definition isinstance_dict (v : value) : bool :=
  match v with VDict _ => true | _ => false end.

(** [needle in hay] for two texts. *)
Fixpoint is_substring (needle hay : string) : bool :=
  String.prefix needle hay ||
  match hay with
  | EmptyString => false
  | String _ hay' => is_substring needle hay'
  end.

Fixpoint lookup_key (k : string) (d : list (string * value)) : option value :=
  match d with
  | [] => None
  | (k', v) :: d' => if String.eqb k' k then Some v else lookup_key k d'
  end.

Definition is_str (k : string) (v : value) : bool :=
  match v with VStr s => String.eqb s k | _ => false end.

(** [k in v], for a [str] [k]. *)
Definition contains (k : string) (v : value) : res bool :=
  match v with
  | VDict d => Ret (if lookup_key k d is Some _ then true else false)
  | VList l => Ret (existsb (is_str k) l)
  | VStr s => Ret (is_substring k s)
  | _ => Raise (TypeError
                  ("argument of type '" +:+ type_name v +:+ "' is not iterable"))
  end.

(** [v[k]], for a [str] [k]. *)
Definition getitem (v : value) (k : string) : res value :=
  match v with
  | VDict d =>
      match lookup_key k d with
      | Some x => Ret x
      | None => Raise (KeyError (VStr k))
      end
  | VList _ => Raise (TypeError "list indices must be integers or slices, not str")
  | VStr _ => Raise (TypeError "string indices must be integers, not 'str'")
  | _ => Raise (TypeError ("'" +:+ type_name v +:+ "' object is not subscriptable"))
  end.

(** [v[0]] *)
Definition getitem0 (v : value) : res value :=
  match v with
  | VList (x :: _) => Ret x
  | VList [] => Raise (IndexError "list index out of range")
  | VStr (String c _) => Ret (VStr (String c EmptyString))
  | VStr EmptyString => Raise (IndexError "string index out of range")
  | VDict _ => Raise (KeyError (VInt 0))
  | _ => Raise (TypeError ("'" +:+ type_name v +:+ "' object is not subscriptable"))
  end.

(** [len(v)] *)
Definition len (v : value) : res nat :=
  match v with
  | VList l => Ret (List.length l)
  | VDict d => Ret (List.length d)
  | VStr s => Ret (String.length s)
  | _ => Raise (TypeError
                  ("object of type '" +:+ type_name v +:+ "' has no len()"))
  end.

(** [v.get(k)]: only a [dict] has the method. *)
Definition get (v : value) (k : string) : res value :=
  match v with
  | VDict d => Ret (default VNone (lookup_key k d))
  | _ => Raise (AttributeError
                  ("'" +:+ type_name v +:+ "' object has no attribute 'get'"))
  end.

(** *** Text methods *)

(** [str.isspace] on one code point of the Latin-1 range. *)
Definition isspace (c : ascii) : bool :=
  let n := ord c in
  ((9 <=? n) && (n <=? 13) || (28 <=? n) && (n <=? 32)
   || (n =? 133) || (n =? 160))%nat.

Fixpoint lstrip (s : string) : string :=
  match s with
  | EmptyString => EmptyString
  | String c s' => if isspace c then lstrip s' else s
  end.

Fixpoint rstrip (s : string) : string :=
  match s with
  | EmptyString => EmptyString
  | String c s' =>
      match rstrip s' with
      | EmptyString => if isspace c then EmptyString else String c EmptyString
      | r => String c r
      end
  end.

(** [s.strip()] *)
Definition strip (s : string) : string := rstrip (lstrip s).

(** [s.split(sep)] for a one-character separator. *)
Fixpoint split (sep : ascii) (s : string) : list string :=
  match s with
  | EmptyString => [EmptyString]
  | String c s' =>
      if Ascii.eqb c sep then EmptyString :: split sep s'
      else match split sep s' with
           | h :: t => String c h :: t
           | [] => [String c EmptyString]
           end
  end.

(** [s.startswith(p)] *)
Definition startswith (s p : string) : bool := String.prefix p s.

End Py.

Import Py.

(** ** The outside world *)

(** [requests.post(url, headers=..., json=..., timeout=...)] *)
Record HttpRequest : Type := mk_request {
  url : string;
  headers : list (string * string);
  payload : value;
  timeout : Z
}.

(** A [requests.Response], by what the program reads of it. *)
Record Response : Type := mk_response {
  status_code : Z;
  json : res value;
  text : string
}.

(** [client.chat.completions.create(model=..., messages=...)] *)
Record ChatRequest : Type := mk_chat {
  chat_model : string;
  messages : list (list (string * string))
}.

(** The object the chat client returns, by the three ways the program
    reads it: [response.choices[0].message.content],
    [response['choices'][0]['message']['content']] and [str(response)]. *)
Record Completion : Type := mk_completion {
  attr_content : res value;
  item_content : res value;
  completion_str : res string
}.

(** One outbound call. *)
Inductive Event : Type :=
| Post (r : HttpRequest)
| ChatCreate (api_key : string) (r : ChatRequest).

(** The chat client class, when it could be imported. *)
Record Sdk : Type := mk_sdk {
  new_client : string -> res unit;
  chat_create : list Event -> string -> ChatRequest -> res Completion
}.

(** The process environment, the HTTP layer and the module global
    [OpenAI] ([None] when the import failed).  An answer of the network
    may depend on every call made before it. *)
Record World : Type := mk_world {
  environ : gmap string string;
  requests_post : list Event -> HttpRequest -> res Response;
  OpenAI : option Sdk
}.

(** ** Computations: exceptions and the log of outbound calls *)

Definition M (A : Type) : Type := list Event -> res A * list Event.

Definition ret {A} (a : A) : M A := fun tr => (Ret a, tr).

Definition bind {A B} (m : M A) (f : A -> M B) : M B :=
  fun tr =>
    match m tr with
    | (Ret a, tr') => f a tr'
    | (Raise e, tr') => (Raise e, tr')
    end.

Definition lift {A} (r : res A) : M A := fun tr => (r, tr).

(** [try: m  except Exception as e: h e] *)
Definition try_except {A} (m : M A) (h : exn -> M A) : M A :=
  fun tr =>
    match m tr with
    | (Ret a, tr') => (Ret a, tr')
    | (Raise e, tr') => h e tr'
    end.

Declare Scope py_scope.
Delimit Scope py_scope with py.
Notation "x <- m ;; k" := (bind m (fun x => k))
  (at level 100, m at next level, right associativity) : py_scope.
Local Open Scope py_scope.

(** [a and b], where evaluating either side may raise. *)
Definition and_then (a b : M bool) : M bool :=
  x <- a ;; if (x : bool) then b else ret false.
Infix "&&&" := and_then (at level 40, left associativity) : py_scope.

Section Program.

Variable w : World.

Definition post (r : HttpRequest) : M Response :=
  fun tr => (requests_post w tr r, (tr ++ [Post r])%list).

Definition create (api_key : string) (r : ChatRequest) (sdk : Sdk)
  : M Completion :=
  fun tr => (chat_create sdk tr api_key r, (tr ++ [ChatCreate api_key r])%list).

(** ** [call_huggingface] *)

Definition router_url (model : string) : string :=
  "https://router.huggingface.co/hf-inference/" +:+ model.

Definition hf_headers (hf_key : string) : list (string * string) :=
  [("Authorization", "Bearer " +:+ hf_key); ("Accept", "application/json")].

Definition hf_payload (prompt : string) : value :=
  VDict [("inputs", VStr prompt);
         ("options", VDict [("wait_for_model", VBool true)]);
         ("parameters", VDict [("max_new_tokens", VInt 512)])].

Definition hf_request (prompt hf_key model : string) : HttpRequest :=
  mk_request (router_url model) (hf_headers hf_key) (hf_payload prompt) 60.

Definition default_fallback_models : list string :=
  ["gpt2"; "bigscience/bloom-560m"; "facebook/opt-350m"].

(** The list walked after a 404: the built-in one, unless the
    environment overrides it with a non-empty comma-separated text. *)
Definition fallback_models : list string :=
  match environ w !! "HUGGINGFACE_FALLBACK_MODELS" with
  | Some env_fallback =>
      if String.eqb env_fallback EmptyString then default_fallback_models
      else List.map strip
             (List.filter (fun m => negb (String.eqb (strip m) EmptyString))
                (split "," env_fallback))
  | None => default_fallback_models
  end.

(** [isinstance(data, list) and len(data) > 0
     and 'generated_text' in data[0]] *)
Definition first_has_generated_text (data : value) : M bool :=
  ret (isinstance_list data)
  &&& (n <- lift (len data) ;; ret (0 <? n)%nat)
  &&& (x <- lift (getitem0 data) ;; lift (contains "generated_text" x)).

(** ['choices' in data and len(data['choices']) > 0
     and 'text' in data['choices'][0]] *)
Definition first_choice_has_text (data : value) : M bool :=
  lift (contains "choices" data)
  &&& (c <- lift (getitem data "choices") ;;
       n <- lift (len c) ;; ret (0 <? n)%nat)
  &&& (c <- lift (getitem data "choices") ;;
       x <- lift (getitem0 c) ;; lift (contains "text" x)).

(** [data[0]['generated_text']] *)
Definition first_generated_text (data : value) : M value :=
  x <- lift (getitem0 data) ;; lift (getitem x "generated_text").

(** [data['choices'][0]['text']] *)
Definition first_choice_text (data : value) : M value :=
  c <- lift (getitem data "choices") ;;
  x <- lift (getitem0 c) ;; lift (getitem x "text").

(** The body of the [try] that reads a fallback's 200 response. *)
Definition parse_fallback (resp2 : Response) : M (bool * value) :=
  data2 <- lift (json resp2) ;;
  b1 <- first_has_generated_text data2 ;;
  if (b1 : bool) then t <- first_generated_text data2 ;; ret (true, t)
  else
    b2 <- ret (isinstance_dict data2)
          &&& lift (contains "generated_text" data2) ;;
    if (b2 : bool) then
      t <- lift (getitem data2 "generated_text") ;; ret (true, t)
    else
      b3 <- ret (isinstance_dict data2) &&& first_choice_has_text data2 ;;
      if (b3 : bool) then t <- first_choice_text data2 ;; ret (true, t)
      else ret (true, VStr (str data2)).

(** [for fm in fallback_models: ...]; [None] when the loop runs to its
    end without returning. *)
Fixpoint try_fallbacks (prompt hf_key : string) (fms : list string)
  : M (option (bool * value)) :=
  match fms with
  | [] => ret None
  | fm :: rest =>
      r <- try_except
             (resp2 <- post (hf_request prompt hf_key fm) ;; ret (Some resp2))
             (fun _ => ret None) ;;
      match r with
      | None => try_fallbacks prompt hf_key rest
      | Some resp2 =>
          if status_code resp2 =? 200 then
            try_except
              (p <- parse_fallback resp2 ;; ret (Some p))
              (fun _ =>
                 ret (Some (false,
                            VStr ("Parse error from fallback model " +:+ fm))))
          else try_fallbacks prompt hf_key rest
      end
  end.

(** The last [try] of the non-200 branch. *)
Definition generic_error (resp : Response) : M (bool * value) :=
  try_except
    (j <- lift (json resp) ;;
     ret (false,
          VStr ("Error " +:+ str_int (status_code resp) +:+ ": " +:+ str j)))
    (fun _ =>
       ret (false,
            VStr ("Error " +:+ str_int (status_code resp) +:+ ": "
                  +:+ text resp))).

(** The body of the [try] that reads the primary 200 response. *)
Definition parse_response (resp : Response) : M (bool * value) :=
  data <- lift (json resp) ;;
  b1 <- first_has_generated_text data ;;
  if (b1 : bool) then t <- first_generated_text data ;; ret (true, t)
  else
    if isinstance_dict data then
      b2 <- lift (contains "generated_text" data) ;;
      if (b2 : bool) then
        t <- lift (getitem data "generated_text") ;; ret (true, t)
      else
        b3 <- lift (contains "error" data) ;;
        if (b3 : bool) then
          e <- lift (getitem data "error") ;;
          ret (false, VStr ("HF error: " +:+ str e))
        else
          b4 <- first_choice_has_text data ;;
          if (b4 : bool) then t <- first_choice_text data ;; ret (true, t)
          else ret (true, VStr (str data))
    else ret (true, VStr (str data)).

Definition call_huggingface (prompt hf_key model : string)
  : M (bool * value) :=
  r <- try_except
         (resp <- post (hf_request prompt hf_key model) ;; ret (inr resp))
         (fun e => ret (inl (false, VStr ("Request error: " +:+ str_exn e)))) ;;
  match r with
  | inl early => ret early
  | inr resp =>
      if negb (status_code resp =? 200) then
        found <- (if status_code resp =? 404
                  then try_fallbacks prompt hf_key fallback_models
                  else ret None) ;;
        match found with
        | Some out => ret out
        | None => generic_error resp
        end
      else
        try_except (parse_response resp)
          (fun e => ret (false, VStr ("Parse error: " +:+ str_exn e)))
  end.

(** ** [call_openai] *)

Definition system_message : string :=
  "You are a technical documentation expert. Generate clear and concise documentation for the given code.".

Definition chat_request (prompt model : string) : ChatRequest :=
  mk_chat model
    [[("role", "system"); ("content", system_message)];
     [("role", "user"); ("content", prompt)]].

Definition call_openai (prompt openai_key model : string)
  : M (bool * value) :=
  match OpenAI w with
  | None => ret (false, VStr "OpenAI client not installed in environment.")
  | Some sdk =>
      try_except
        (client <- lift (new_client sdk openai_key) ;;
         response <- create openai_key (chat_request prompt model) sdk ;;
         try_except
           (c <- lift (attr_content response) ;; ret (true, c))
           (fun _ =>
              try_except
                (c <- lift (item_content response) ;; ret (true, c))
                (fun _ =>
                   t <- lift (completion_str response) ;;
                   ret (true, VStr t))))
        (fun e => ret (false, VStr (str_exn e)))
  end.

(** ** [generate_docs] *)

(** The Flask [request], by the outcome of reading [request.json]. *)
Record FlaskRequest : Type := mk_flask_request {
  request_json : res value
}.

(** What the view returns: [jsonify(body), status]. *)
Record Reply : Type := mk_reply {
  reply_body : value;
  reply_status : Z
}.

Definition jsonify_documentation (result : value) : Reply :=
  mk_reply (VDict [("documentation", result)]) 200.

Definition jsonify_error (message : value) (status : Z) : Reply :=
  mk_reply (VDict [("error", message)]) status.

Definition instruction_text : string :=
  "Please generate ONLY a documentation docstring or block comment for the following code. "
  +:+ "Return only the docstring or comment text (no extra explanation)."
  +:+ newline +:+ newline.

Definition build_prompt (code : value) : string :=
  instruction_text
  +:+ ("Code:" +:+ newline +:+ str code +:+ newline +:+ newline
       +:+ "Documentation:").

(** [key and key.startswith(p)]: the key itself when the test passes. *)
Definition matching_key (key : option string) (p : string) : option string :=
  match key with
  | Some k => if negb (String.eqb k EmptyString) && startswith k p then Some k else None
  | None => None
  end.

Definition no_key_message : string :=
  "No API key found. Set HUGGINGFACE_API_KEY (hf_...) or OPENAI_API_KEY (sk_...).".

Definition to_reply (out : bool * value) : Reply :=
  if fst out then jsonify_documentation (snd out)
  else jsonify_error (snd out) 502.

(** The assignments to [hardcoded_hf] and [hardcoded_openai] before the
    last [return] are never read and are left out. *)
Definition generate_docs (request : FlaskRequest) : M Reply :=
  try_except
    (body <- lift (request_json request) ;;
     code <- lift (get body "code") ;;
     if negb (truthy code) then
       ret (jsonify_error (VStr "No code provided") 400)
     else
       let prompt := build_prompt code in
       let hf_key := environ w !! "HUGGINGFACE_API_KEY" in
       let openai_key := environ w !! "OPENAI_API_KEY" in
       match matching_key hf_key "hf_" with
       | Some hf_key =>
           let hf_model :=
             default "google/flan-t5-large"
               (environ w !! "HUGGINGFACE_MODEL") in
           out <- call_huggingface prompt hf_key hf_model ;;
           ret (to_reply out)
       | None =>
           match matching_key openai_key "sk-" with
           | Some openai_key =>
               out <- call_openai prompt openai_key "gpt-3.5-turbo" ;;
               ret (to_reply out)
           | None => ret (jsonify_error (VStr no_key_message) 400)
           end
       end)
    (fun e => ret (jsonify_error (VStr (str_exn e)) 500)).

End Program.

(** ** Scenarios

    Concrete worlds on which the program is run below. *)

Definition env_hf : gmap string string :=
  {[ "HUGGINGFACE_API_KEY" := "hf_demo" ]}.

Definition not_found : Response :=
  mk_response 404 (Ret (VDict [("error", VStr "Not Found")])) "Not Found".

Definition unavailable : Response :=
  mk_response 503 (Raise (Error "Expecting value")) "Service Unavailable".

Definition ok_with (body : value) : Response :=
  mk_response 200 (Ret body) EmptyString.

(** The primary model is unknown; every later request is answered 200
    with [{"error": "blew up"}]. *)
Definition world_fallback_error : World :=
  mk_world env_hf
    (fun tr _ =>
       match tr with
       | [] => Ret not_found
       | _ => Ret (ok_with (VDict [("error", VStr "blew up")]))
       end)
    None.

(** The primary model is unknown; every later request is answered 200
    with [{"generated_text": "Y"}]. *)
Definition world_fallback_success : World :=
  mk_world env_hf
    (fun tr _ =>
       match tr with
       | [] => Ret not_found
       | _ => Ret (ok_with (VDict [("generated_text", VStr "Y")]))
       end)
    None.

(** The primary model is unknown, the first fallback cannot be reached
    and the others answer 503. *)
Definition world_fallbacks_exhausted : World :=
  mk_world env_hf
    (fun tr _ =>
       match tr with
       | [] => Ret not_found
       | [_] => Raise (Error "Connection refused")
       | _ => Ret unavailable
       end)
    None.

(** The primary model answers 200 with [{"error": "blew up"}]. *)
Definition world_primary_error : World :=
  mk_world env_hf
    (fun _ _ => Ret (ok_with (VDict [("error", VStr "blew up")])))
    None.

(** No credential at all and no chat client; the network would answer. *)
Definition world_no_keys : World :=
  mk_world ∅
    (fun _ _ => Ret (ok_with (VList [VDict [("generated_text", VStr "X")]])))
    None.

(** Both variables are set, neither with the prefix it needs. *)
Definition world_wrong_keys : World :=
  mk_world
    ({[ "HUGGINGFACE_API_KEY" := "sk-swapped";
        "OPENAI_API_KEY" := "hf_swapped" ]})
    (fun _ _ => Ret (ok_with (VList [VDict [("generated_text", VStr "X")]])))
    None.

Definition request_with_code : FlaskRequest :=
  mk_flask_request (Ret (VDict [("code", VStr "x = 1")])).

Definition request_without_code : FlaskRequest :=
  mk_flask_request (Ret (VDict [("language", VStr "python")])).

(** The posted body is the JSON array [[]]. *)
Definition request_array : FlaskRequest :=
  mk_flask_request (Ret (VList [])).

(** The posted body could not be decoded. *)
Definition request_undecodable : FlaskRequest :=
  mk_flask_request
    (Raise (Error "400 Bad Request: The browser (or proxy) sent a request that this server could not understand.")).

(** ** Vocabulary of the statements *)

(** The [code] field of the posted object, when the body is an object
    that has one. *)
Definition code_field (request : FlaskRequest) : option value :=
  match request_json request with
  | Ret (VDict d) => lookup_key "code" d
  | _ => None
  end.

(** The line [code = request.json.get('code')]. *)
Definition read_code (request : FlaskRequest) : res value :=
  match request_json request with
  | Ret body => get body "code"
  | Raise e => Raise e
  end.

(** A fallback attempt that does not end the loop: the request raised,
    or its answer is not a 200. *)
Definition attempt_fails (r : res Response) : Prop :=
  match r with
  | Raise _ => True
  | Ret resp2 => status_code resp2 ≠ 200
  end.

(** The requests of the fallback loop, one per model. *)
Definition fallback_posts (prompt hf_key : string) (fms : list string)
  : list Event :=
  List.map (fun fm => Post (hf_request prompt hf_key fm)) fms.

(** What the non-200 branch reports for [resp]. *)
Definition original_error (resp : Response) : string :=
  "Error " +:+ str_int (status_code resp) +:+ ": " +:+
  match json resp with
  | Ret j => str j
  | Raise _ => text resp
  end.

(** [h = a + n + b] for some [a] and [b]. *)
Definition occurs_in (n h : string) : Prop :=
  ∃ a b : string, h = a +:+ n +:+ b.

(** A failure carries a text. *)
Definition failure_has_message (out : bool * value) : Prop :=
  fst out = false → ∃ msg : string, snd out = VStr msg.

(** [m] returns, never raises, and what it returns satisfies [Q]. *)
Definition returns {A : Type} (m : M A) (Q : A → Prop) : Prop :=
  ∀ tr, ∃ a tr', m tr = (Ret a, tr') ∧ Q a.

(** Whatever [m] returns satisfies [Q]; it may also raise. *)
Definition yields {A : Type} (m : M A) (Q : A → Prop) : Prop :=
  ∀ tr a tr', m tr = (Ret a, tr') → Q a.

(** ** Further scenarios and vocabulary *)

(** A network that answers the [n]-th request of a run with the [n]-th
    entry of a script, and with [last] once the script is used up. *)
Definition scripted (answers : list (res Response)) (last : res Response)
  : list Event → HttpRequest → res Response :=
  λ tr _, nth (List.length tr) answers last.

Definition refused : res Response := Raise (Error "Connection refused").

Definition server_error : Response :=
  mk_response 500 (Raise (Error "Expecting value")) "Internal Server Error".

(** A 200 answer whose body does not decode. *)
Definition garbled : Response :=
  mk_response 200 (Raise (Error "Expecting value: line 1 column 1 (char 0)"))
    "<html>".

(** The fallback list is overridden by separators and blanks only. *)
Definition env_blank_fallbacks : gmap string string :=
  {[ "HUGGINGFACE_API_KEY" := "hf_demo";
     "HUGGINGFACE_FALLBACK_MODELS" := " , ," ]}.

(** Both credentials are set and well formed; the model is overridden. *)
Definition env_both : gmap string string :=
  {[ "HUGGINGFACE_API_KEY" := "hf_demo";
     "OPENAI_API_KEY" := "sk-demo";
     "HUGGINGFACE_MODEL" := "org/model" ]}.

Definition env_openai : gmap string string :=
  {[ "OPENAI_API_KEY" := "sk-demo" ]}.

(** A chat client whose constructor works and whose call answers [c]. *)
Definition sdk_answering (c : res Completion) : Sdk :=
  mk_sdk (λ _, Ret tt) (λ _ _ _, c).

(** A chat client whose constructor raises. *)
Definition sdk_broken : Sdk :=
  mk_sdk (λ _, Raise (Error "The api_key client option must be set"))
    (λ _ _ _, Raise (Error "unreachable")).

(** A completion read through its attributes. *)
Definition completion_attr : Completion :=
  mk_completion (Ret (VStr "Adds two numbers."))
    (Raise (TypeError "'ChatCompletion' object is not subscriptable"))
    (Ret "ChatCompletion(...)").

(** A completion that only prints. *)
Definition completion_opaque : Completion :=
  mk_completion (Raise (AttributeError "no attribute 'choices'"))
    (Raise (TypeError "object is not subscriptable"))
    (Ret "<response>").

(** The primary model is unknown, the first fallback cannot be reached
    and every later request is answered 200 with [body]. *)
Definition world_second_fallback (body : res value) : World :=
  mk_world env_hf
    (scripted [Ret not_found; refused] (Ret (mk_response 200 body EmptyString)))
    None.

(** No request gets through. *)
Definition world_unreachable : World :=
  mk_world env_hf (scripted [] refused) None.

(** Every request is answered 500. *)
Definition world_server_error : World :=
  mk_world env_hf (scripted [] (Ret server_error)) None.

(** Every request is answered 200 with [body]. *)
Definition world_answering (body : res value) : World :=
  mk_world env_hf (scripted [] (Ret (mk_response 200 body EmptyString))) None.

(** No model is known and the fallback list is overridden by blanks. *)
Definition world_blank_fallbacks : World :=
  mk_world env_blank_fallbacks (scripted [] (Ret not_found)) None.

(** Only the OpenAI key is set; the chat client is [sdk]. *)
Definition world_chat (sdk : Sdk) : World :=
  mk_world env_openai (scripted [] refused) (Some sdk).

(** Both keys are set and both providers would answer. *)
Definition world_both : World :=
  mk_world env_both
    (scripted [] (Ret (ok_with (VList [VDict [("generated_text", VStr "X")]]))))
    (Some (sdk_answering (Ret completion_attr))).

Definition request_zero_code : FlaskRequest :=
  mk_flask_request (Ret (VDict [("code", VInt 0)])).

(** [None], a boolean or a number: what has neither items nor keys. *)
Definition is_scalar (v : value) : bool :=
  match v with
  | VNone | VBool _ | VInt _ | VFloat _ => true
  | _ => false
  end.

Definition is_post (ev : Event) : bool :=
  match ev with Post _ => true | ChatCreate _ _ => false end.

Definition is_chat (ev : Event) : bool :=
  match ev with Post _ => false | ChatCreate _ _ => true end.

(** [m] makes no outbound call. *)
Definition silent {A : Type} (m : M A) : Prop :=
  ∀ tr, snd (m tr) = tr.

(** The two shapes of a reply: the documentation with status 200, or an
    error text with status 400, 500 or 502. *)
Definition well_formed_reply (reply : Reply) : Prop :=
  (reply_status reply = 200
   ∧ ∃ v : value, reply_body reply = VDict [("documentation", v)])
  ∨ ((reply_status reply = 400 ∨ reply_status reply = 500
      ∨ reply_status reply = 502)
     ∧ ∃ msg : string, reply_body reply = VDict [("error", VStr msg)]).

(** Every character of [s] is a comma or a blank. *)
Fixpoint only_separators (s : string) : bool :=
  match s with
  | EmptyString => true
  | String c s' =>
      (Ascii.eqb c "," || isspace c) && only_separators s'
  end.

Fixpoint only_blanks (s : string) : bool :=
  match s with
  | EmptyString => true
  | String c s' => isspace c && only_blanks s'
  end.

(** A text that [strip] leaves as it is and that is not empty. *)
Definition clean_name (m : string) : Prop :=
  m ≠ EmptyString ∧ strip m = m.

(** ** Properties of the provider clients *)

Arguments parse_fallback : simpl never.
Arguments parse_response : simpl never.
Arguments generic_error : simpl never.
Arguments fallback_models : simpl never.
Arguments call_huggingface : simpl never.
Arguments call_openai : simpl never.

Section HuggingFace.

Variable w : World.
Variables prompt hf_key : string.

Lemma post_run (r : HttpRequest) (tr : list Event) :
  post w r tr = (requests_post w tr r, (tr ++ [Post r])%list).
Proof. reflexivity. Qed.

(** A fallback that cannot be reached, or that answers something else
    than 200, hands over to the next one. *)
Lemma try_fallbacks_skip (fm : string) (rest : list string) (tr : list Event) :
  attempt_fails (requests_post w tr (hf_request prompt hf_key fm)) →
  try_fallbacks w prompt hf_key (fm :: rest) tr
  = try_fallbacks w prompt hf_key rest (tr ++ [Post (hf_request prompt hf_key fm)])%list.
Proof.
  intros Hfail. cbn [try_fallbacks]. unfold bind at 1, try_except at 1.
  unfold bind at 1. rewrite post_run.
  destruct (requests_post w tr (hf_request prompt hf_key fm)) as [resp2|e]; cbn.
  - cbn in Hfail. apply Z.eqb_neq in Hfail. now rewrite Hfail.
  - reflexivity.
Qed.

(** When every attempt fails the loop runs to its end, having asked each
    model once, in order. *)
Lemma try_fallbacks_exhausted (fms : list string) :
  ∀ tr : list Event,
    (∀ (pre : list string) (fm : string) (suf : list string),
        fms = (pre ++ fm :: suf)%list →
        attempt_fails
          (requests_post w (tr ++ fallback_posts prompt hf_key pre)%list
             (hf_request prompt hf_key fm))) →
    try_fallbacks w prompt hf_key fms tr
    = (Ret None, (tr ++ fallback_posts prompt hf_key fms)%list).
Proof.
  induction fms as [|fm rest IH]; intros tr Hall.
  - cbn. now rewrite app_nil_r.
  - rewrite try_fallbacks_skip.
    + rewrite IH.
      * cbn. now rewrite <- app_assoc.
      * intros pre fm' suf ->.
        specialize (Hall (fm :: pre) fm' suf eq_refl).
        cbn in Hall. now rewrite <- app_assoc.
    + specialize (Hall [] fm rest eq_refl). cbn in Hall.
      now rewrite app_nil_r in Hall.
Qed.

(** The first 200 answer ends the loop with what [parse_fallback] makes
    of it. *)
Lemma try_fallbacks_first_200 (fm : string) (rest : list string)
    (tr : list Event) (resp2 : Response) :
  requests_post w tr (hf_request prompt hf_key fm) = Ret resp2 →
  status_code resp2 = 200 →
  try_fallbacks w prompt hf_key (fm :: rest) tr
  = match parse_fallback resp2 (tr ++ [Post (hf_request prompt hf_key fm)])%list with
    | (Ret p, tr') => (Ret (Some p), tr')
    | (Raise _, tr') =>
        (Ret (Some (false, VStr ("Parse error from fallback model " +:+ fm))),
         tr')
    end.
Proof.
  intros Hpost H200. cbn [try_fallbacks]. unfold bind at 1, try_except at 1.
  unfold bind at 1. rewrite post_run, Hpost. cbn.
  rewrite H200. cbn. unfold try_except, bind.
  destruct (parse_fallback resp2 _) as [[p|e] tr']; reflexivity.
Qed.

(** After a 404, [call_huggingface] is the fallback loop followed, when
    the loop found nothing, by the generic error of the first answer. *)
Lemma call_huggingface_404 (model : string) (tr : list Event)
    (resp : Response) :
  requests_post w tr (hf_request prompt hf_key model) = Ret resp →
  status_code resp = 404 →
  call_huggingface w prompt hf_key model tr
  = match try_fallbacks w prompt hf_key (fallback_models w)
            (tr ++ [Post (hf_request prompt hf_key model)])%list with
    | (Ret (Some out), tr') => (Ret out, tr')
    | (Ret None, tr') => generic_error resp tr'
    | (Raise e, tr') => (Raise e, tr')
    end.
Proof.
  intros Hpost H404. unfold call_huggingface.
  unfold bind at 1, try_except at 1. unfold bind at 1.
  rewrite post_run, Hpost. cbn. rewrite H404. cbn. unfold bind.
  destruct (try_fallbacks w prompt hf_key _ _) as [[[out|]|e] tr'];
    reflexivity.
Qed.

Lemma generic_error_run (resp : Response) (tr : list Event) :
  generic_error resp tr = (Ret (false, VStr (original_error resp)), tr).
Proof.
  unfold generic_error, original_error, try_except, bind, lift, ret.
  destruct (json resp); reflexivity.
Qed.

(** C3. When the primary answer is a 404 and the first fallback model
    answers 200 with [{"generated_text": Y}], the result is the success
    [(True, Y)], and the calls made are exactly the primary request and
    the request to that first fallback: no later model is asked. *)
Theorem first_fallback_success_stops_loop
    (model fm : string) (rest : list string) (tr : list Event)
    (resp resp2 : Response) (Y : string) :
  requests_post w tr (hf_request prompt hf_key model) = Ret resp →
  status_code resp = 404 →
  fallback_models w = fm :: rest →
  requests_post w (tr ++ [Post (hf_request prompt hf_key model)])%list (hf_request prompt hf_key fm)
  = Ret resp2 →
  status_code resp2 = 200 →
  json resp2 = Ret (VDict [("generated_text", VStr Y)]) →
  call_huggingface w prompt hf_key model tr
  = (Ret (true, VStr Y),
     (tr ++ [Post (hf_request prompt hf_key model); Post (hf_request prompt hf_key fm)])%list).
Proof.
  intros Hpost H404 Hfms Hpost2 H200 Hbody.
  rewrite (call_huggingface_404 model tr resp Hpost H404), Hfms.
  rewrite (try_fallbacks_first_200 fm rest _ resp2 Hpost2 H200).
  unfold parse_fallback, bind at 1, lift at 1. rewrite Hbody. cbn.
  now rewrite <- app_assoc.
Qed.

(** C2. When the primary answer is a 404 and every fallback attempt
    either raises or is answered with a status other than 200, the
    result is the failure built from the first answer: its status code
    followed by its JSON payload, or by its raw text when the payload
    does not decode.  Every fallback model has been asked once. *)
Theorem exhausted_fallbacks_report_original_404
    (model : string) (tr : list Event) (resp : Response) :
  requests_post w tr (hf_request prompt hf_key model) = Ret resp →
  status_code resp = 404 →
  (∀ (pre : list string) (fm : string) (suf : list string),
      fallback_models w = (pre ++ fm :: suf)%list →
      attempt_fails
        (requests_post w
           (tr ++ Post (hf_request prompt hf_key model) :: fallback_posts prompt hf_key pre)%list
           (hf_request prompt hf_key fm))) →
  call_huggingface w prompt hf_key model tr
  = (Ret (false,
          VStr ("Error 404: " +:+
                match json resp with
                | Ret j => str j
                | Raise _ => text resp
                end)),
     (tr ++ Post (hf_request prompt hf_key model)
         :: fallback_posts prompt hf_key (fallback_models w))%list).
Proof.
  intros Hpost H404 Hall.
  rewrite (call_huggingface_404 model tr resp Hpost H404).
  rewrite try_fallbacks_exhausted.
  - rewrite generic_error_run. unfold original_error. rewrite H404.
    now rewrite <- app_assoc.
  - intros pre fm suf Hsplit. rewrite <- app_assoc.
    exact (Hall pre fm suf Hsplit).
Qed.

(** C4. A primary answer with status 200 whose body is
    [{"error": "blew up"}] gives the failure ["HF error: blew up"]. *)
Theorem primary_error_body_is_failure
    (model : string) (tr : list Event) (resp : Response) :
  requests_post w tr (hf_request prompt hf_key model) = Ret resp →
  status_code resp = 200 →
  json resp = Ret (VDict [("error", VStr "blew up")]) →
  call_huggingface w prompt hf_key model tr
  = (Ret (false, VStr "HF error: blew up"),
     (tr ++ [Post (hf_request prompt hf_key model)])%list).
Proof.
  intros Hpost H200 Hbody. unfold call_huggingface.
  unfold bind at 1, try_except at 1. unfold bind at 1.
  rewrite post_run, Hpost. cbn. rewrite H200. cbn.
  unfold try_except, parse_response, bind at 1, lift at 1.
  now rewrite Hbody.
Qed.

End HuggingFace.

(** C1. On the fallback path a 200 answer is not read the way the
    primary one is.  With the primary model unknown and the first
    fallback answering 200 with [{"error": "blew up"}],
    [call_huggingface] returns the success [(True, "{'error': 'blew up'}")],
    while the reader of the primary path turns the same answer into the
    failure ["HF error: blew up"]. *)
Theorem fallback_error_body_is_success :
  call_huggingface world_fallback_error "p" "hf_demo" "no/such-model" []
  = (Ret (true, VStr "{'error': 'blew up'}"),
     [Post (hf_request "p" "hf_demo" "no/such-model");
      Post (hf_request "p" "hf_demo" "gpt2")])
  ∧ parse_response (ok_with (VDict [("error", VStr "blew up")])) []
    = (Ret (false, VStr "HF error: blew up"), []).
Proof. split; vm_compute; reflexivity. Qed.

Lemma first_fallback_success_stops_loop_witness :
  call_huggingface world_fallback_success "p" "hf_demo" "no/such-model" []
  = (Ret (true, VStr "Y"),
     [Post (hf_request "p" "hf_demo" "no/such-model");
      Post (hf_request "p" "hf_demo" "gpt2")]).
Proof.
  apply (first_fallback_success_stops_loop world_fallback_success
           "p" "hf_demo" "no/such-model" "gpt2"
           ["bigscience/bloom-560m"; "facebook/opt-350m"] []
           not_found (ok_with (VDict [("generated_text", VStr "Y")])) "Y");
    vm_compute; reflexivity.
Defined.

Lemma exhausted_fallbacks_report_original_404_witness :
  call_huggingface world_fallbacks_exhausted "p" "hf_demo" "no/such-model" []
  = (Ret (false, VStr "Error 404: {'error': 'Not Found'}"),
     [Post (hf_request "p" "hf_demo" "no/such-model");
      Post (hf_request "p" "hf_demo" "gpt2");
      Post (hf_request "p" "hf_demo" "bigscience/bloom-560m");
      Post (hf_request "p" "hf_demo" "facebook/opt-350m")]).
Proof.
  apply (exhausted_fallbacks_report_original_404 world_fallbacks_exhausted
           "p" "hf_demo" "no/such-model" [] not_found).
  - vm_compute; reflexivity.
  - vm_compute; reflexivity.
  - intros pre fm suf Hsplit. vm_compute in Hsplit.
    destruct pre as [|m1 [|m2 [|m3 [|m4 pre]]]]; cbn in Hsplit;
      inversion Hsplit; subst; cbn; try exact I; discriminate.
Defined.

Lemma primary_error_body_is_failure_witness :
  call_huggingface world_primary_error "p" "hf_demo" "google/flan-t5-large" []
  = (Ret (false, VStr "HF error: blew up"),
     [Post (hf_request "p" "hf_demo" "google/flan-t5-large")]).
Proof.
  apply (primary_error_body_is_failure world_primary_error
           "p" "hf_demo" "google/flan-t5-large" []
           (ok_with (VDict [("error", VStr "blew up")])));
    vm_compute; reflexivity.
Defined.

(** ** A small program logic for [M] *)

Section Logic.

Context {A : Type}.

Lemma returns_ret (a : A) (Q : A → Prop) : Q a → returns (ret a) Q.
Proof. intros Ha tr. now exists a, tr. Qed.

Lemma yields_ret (a : A) (Q : A → Prop) : Q a → yields (ret a) Q.
Proof. intros Ha tr a' tr' [= <- _]. exact Ha. Qed.

Lemma yields_lift (r : res A) (Q : A → Prop) :
  (∀ a, r = Ret a → Q a) → yields (lift r) Q.
Proof. intros Hr tr a tr' [= -> _]. now apply Hr. Qed.

Lemma returns_try (m : M A) (h : exn → M A) (Q : A → Prop) :
  yields m Q → (∀ e, returns (h e) Q) → returns (try_except m h) Q.
Proof.
  intros Hm Hh tr. unfold try_except.
  destruct (m tr) as [[a|e] tr'] eqn:Hrun.
  - exists a, tr'. split; [reflexivity|]. exact (Hm tr a tr' Hrun).
  - apply Hh.
Qed.

Lemma yields_try (m : M A) (h : exn → M A) (Q : A → Prop) :
  yields m Q → (∀ e, yields (h e) Q) → yields (try_except m h) Q.
Proof.
  intros Hm Hh tr a tr'. unfold try_except.
  destruct (m tr) as [[a0|e] tr0] eqn:Hrun.
  - intros [= <- _]. exact (Hm tr a0 tr0 Hrun).
  - apply Hh.
Qed.

Lemma returns_yields (m : M A) (Q : A → Prop) : returns m Q → yields m Q.
Proof.
  intros Hm tr a tr' Hrun. destruct (Hm tr) as (a0 & tr0 & Hrun0 & Ha).
  rewrite Hrun in Hrun0. now injection Hrun0 as -> _.
Qed.

End Logic.

Lemma returns_bind {A B : Type} (m : M A) (f : A → M B)
    (P : A → Prop) (Q : B → Prop) :
  returns m P → (∀ a, P a → returns (f a) Q) → returns (bind m f) Q.
Proof.
  intros Hm Hf tr. unfold bind.
  destruct (Hm tr) as (a & tr' & -> & Ha). exact (Hf a Ha tr').
Qed.

Lemma yields_bind {A B : Type} (m : M A) (f : A → M B)
    (P : A → Prop) (Q : B → Prop) :
  yields m P → (∀ a, P a → yields (f a) Q) → yields (bind m f) Q.
Proof.
  intros Hm Hf tr b tr'. unfold bind.
  destruct (m tr) as [[a|e] tr0] eqn:Hrun; [|discriminate].
  exact (Hf a (Hm tr a tr0 Hrun) tr0 b tr').
Qed.

Lemma yields_bind_any {A B : Type} (m : M A) (f : A → M B) (Q : B → Prop) :
  (∀ a, yields (f a) Q) → yields (bind m f) Q.
Proof.
  intros Hf. apply yields_bind with (P := λ _, True); [now intros ? ? ?|].
  intros a _. apply Hf.
Qed.

Lemma success_has_message (v : value) : failure_has_message (true, v).
Proof. intros [=]. Qed.

Lemma text_has_message (ok : bool) (msg : string) :
  failure_has_message (ok, VStr msg).
Proof. intros _. now exists msg. Qed.

Create HintDb py.
#[local] Hint Resolve success_has_message text_has_message : py.

(** One rule of the logic, chosen by the head of the computation. *)
Ltac step :=
  lazymatch goal with
  | |- yields (ret _) _ => apply yields_ret; auto with py
  | |- returns (ret _) _ => apply returns_ret; auto with py
  | |- yields (bind _ _) _ => apply yields_bind_any; intros ?
  | |- yields (try_except _ _) _ => apply yields_try; [|intros ?]
  | |- returns (try_except _ _) _ => apply returns_try; [|intros ?]
  | |- yields (if ?b then _ else _) _ => destruct b
  | |- returns (if ?b then _ else _) _ => destruct b
  end.

Section Providers.

Variable w : World.

Lemma parse_fallback_yields (resp2 : Response) :
  yields (parse_fallback resp2) failure_has_message.
Proof. unfold parse_fallback. repeat step. Qed.

Lemma parse_response_yields (resp : Response) :
  yields (parse_response resp) failure_has_message.
Proof. unfold parse_response. repeat step. Qed.

(** The fallback loop never raises, and what it found, if anything, is
    a well-formed outcome. *)
Lemma try_fallbacks_returns (prompt hf_key : string) (fms : list string) :
  returns (try_fallbacks w prompt hf_key fms)
    (λ found, ∀ out, found = Some out → failure_has_message out).
Proof.
  induction fms as [|fm rest IH]; cbn [try_fallbacks].
  - step. discriminate.
  - apply returns_bind with (P := λ _, True).
    + repeat step.
    + intros [resp2|] _; [|exact IH].
      step; [|exact IH]. step.
      * apply yields_bind with (P := failure_has_message);
          [apply parse_fallback_yields|].
        intros p Hp. step. now intros out [= <-].
      * step. intros out [= <-]. auto with py.
Qed.

Lemma generic_error_returns (resp : Response) :
  returns (generic_error resp) failure_has_message.
Proof. unfold generic_error. repeat step. Qed.

Lemma call_huggingface_returns (prompt hf_key model : string) :
  returns (call_huggingface w prompt hf_key model) failure_has_message.
Proof.
  unfold call_huggingface.
  apply returns_bind
    with (P := λ r, match r with
                    | inl early => failure_has_message early
                    | inr _ => True
                    end).
  - repeat step.
  - intros [early|resp] Hr; [now step|]. step.
    + apply returns_bind
        with (P := λ found, ∀ out, found = Some out → failure_has_message out).
      * step; [apply try_fallbacks_returns | step; discriminate].
      * intros [out|] Hout; [step; now apply Hout|].
        apply generic_error_returns.
    + step; [apply parse_response_yields | now step].
Qed.

Lemma call_openai_returns (prompt openai_key model : string) :
  returns (call_openai w prompt openai_key model) failure_has_message.
Proof.
  unfold call_openai. destruct (OpenAI w) as [sdk|]; repeat step.
Qed.

End Providers.

(** ** Properties of the dispatcher *)

Section Dispatcher.

Variable w : World.

(** A posted object with a usable [code] reaches the choice of the
    provider. *)
Lemma generate_docs_valid (request : FlaskRequest) (code : value)
    (tr : list Event) :
  code_field request = Some code →
  truthy code = true →
  generate_docs w request tr
  = match matching_key (environ w !! "HUGGINGFACE_API_KEY") "hf_" with
    | Some hf_key =>
        match call_huggingface w (build_prompt code) hf_key
                (default "google/flan-t5-large"
                   (environ w !! "HUGGINGFACE_MODEL")) tr with
        | (Ret out, tr') => (Ret (to_reply out), tr')
        | (Raise e, tr') => (Ret (jsonify_error (VStr (str_exn e)) 500), tr')
        end
    | None =>
        match matching_key (environ w !! "OPENAI_API_KEY") "sk-" with
        | Some openai_key =>
            match call_openai w (build_prompt code) openai_key
                    "gpt-3.5-turbo" tr with
            | (Ret out, tr') => (Ret (to_reply out), tr')
            | (Raise e, tr') =>
                (Ret (jsonify_error (VStr (str_exn e)) 500), tr')
            end
        | None => (Ret (jsonify_error (VStr no_key_message) 400), tr)
        end
    end.
Proof.
  unfold code_field, generate_docs. intros Hcode Htruthy.
  destruct (request_json request) as [[| | | | | |d]|e]; try discriminate.
  unfold try_except, bind at 1, lift at 1, bind at 1, lift at 1.
  cbn [get]. rewrite Hcode.
  change (default VNone (Some code)) with code. rewrite Htruthy. cbn [negb].
  destruct (matching_key (environ w !! "HUGGINGFACE_API_KEY") "hf_") as [k|].
  - unfold bind, ret.
    now destruct (call_huggingface w _ _ _ tr) as [[out|e] tr'].
  - destruct (matching_key (environ w !! "OPENAI_API_KEY") "sk-") as [k|].
    + unfold bind, ret.
      now destruct (call_openai w _ _ _ tr) as [[out|e] tr'].
    + reflexivity.
Qed.

(** A value that is not truthy stops the view before any provider. *)
Lemma generate_docs_falsy_code (request : FlaskRequest)
    (d : list (string * value)) (tr : list Event) :
  request_json request = Ret (VDict d) →
  truthy (default VNone (lookup_key "code" d)) = false →
  generate_docs w request tr
  = (Ret (jsonify_error (VStr "No code provided") 400), tr).
Proof.
  intros Hbody Hfalsy. unfold generate_docs.
  unfold try_except, bind at 1, lift at 1, bind at 1, lift at 1.
  rewrite Hbody. cbn [get]. now rewrite Hfalsy.
Qed.

Lemma matching_key_none (key : option string) (p : string) :
  (∀ k, key = Some k → startswith k p = false) →
  matching_key key p = None.
Proof.
  intros Hkey. destruct key as [k|]; [|reflexivity].
  cbn. rewrite (Hkey k eq_refl). now rewrite andb_false_r.
Qed.

(** C5, amended.  When the posted body is a JSON object whose [code] is
    missing or is the empty text, the view answers 400 with the error
    body ["No code provided"], and no outbound call is made. *)
Theorem missing_code_in_object_is_400 (request : FlaskRequest)
    (d : list (string * value)) (tr : list Event) :
  request_json request = Ret (VDict d) →
  lookup_key "code" d = None ∨ lookup_key "code" d = Some (VStr EmptyString) →
  generate_docs w request tr
  = (Ret (mk_reply (VDict [("error", VStr "No code provided")]) 400), tr).
Proof.
  intros Hbody Hcode. apply (generate_docs_falsy_code request d tr Hbody).
  now destruct Hcode as [-> | ->].
Qed.

(** C6. When the Hugging Face variable holds no text starting with
    ["hf_"] and the OpenAI variable holds no text starting with ["sk-"],
    a request that passed validation is answered 400 with the
    "No API key found" message, and no outbound call is made. *)
Theorem no_matching_credential_is_400 (request : FlaskRequest)
    (code : value) (tr : list Event) :
  code_field request = Some code →
  truthy code = true →
  (∀ k, environ w !! "HUGGINGFACE_API_KEY" = Some k →
        startswith k "hf_" = false) →
  (∀ k, environ w !! "OPENAI_API_KEY" = Some k →
        startswith k "sk-" = false) →
  generate_docs w request tr
  = (Ret (mk_reply
            (VDict [("error",
                     VStr "No API key found. Set HUGGINGFACE_API_KEY (hf_...) or OPENAI_API_KEY (sk_...).")])
            400),
     tr).
Proof.
  intros Hcode Htruthy Hhf Hoa.
  rewrite (generate_docs_valid request code tr Hcode Htruthy).
  now rewrite (matching_key_none _ _ Hhf), (matching_key_none _ _ Hoa).
Qed.

(** C10. When reading the posted payload raises, be it [request.json]
    itself or the [.get] on what it returned, the view answers 500 with
    the text of that exception, which is not the 400 of the validation,
    and no outbound call is made. *)
Theorem unreadable_payload_is_500 (request : FlaskRequest) (e : exn)
    (tr : list Event) :
  read_code request = Raise e →
  generate_docs w request tr
  = (Ret (mk_reply (VDict [("error", VStr (str_exn e))]) 500), tr).
Proof.
  unfold read_code, generate_docs. intros Hread.
  unfold try_except, bind at 1, lift at 1.
  destruct (request_json request) as [body|e0].
  - unfold bind at 1, lift at 1. now rewrite Hread.
  - now injection Hread as ->.
Qed.

(** C7. Without the chat client, [call_openai] fails with its fixed
    message and makes no outbound call. *)
Theorem call_openai_without_client (prompt openai_key model : string)
    (tr : list Event) :
  OpenAI w = None →
  call_openai w prompt openai_key model tr
  = (Ret (false, VStr "OpenAI client not installed in environment."), tr).
Proof. intros Hnone. unfold call_openai. now rewrite Hnone. Qed.

End Dispatcher.


(** ** The prompt *)

Lemma prefix_append (n b : string) : String.prefix n (n +:+ b) = true.
Proof.
  induction n as [|c n IH].
  - now destruct b.
  - change (String c n +:+ b) with (String c (n +:+ b)). cbn [String.prefix].
    destruct (ascii_dec c c) as [_|Hne]; [exact IH | now destruct Hne].
Qed.

Lemma is_substring_unfold (n h : string) :
  is_substring n h
  = String.prefix n h ||
    match h with
    | EmptyString => false
    | String _ h' => is_substring n h'
    end.
Proof. now destruct h. Qed.

(** Python's [in] finds every text that occurs. *)
Lemma is_substring_occurs (n h : string) :
  occurs_in n h → is_substring n h = true.
Proof.
  intros (a & b & ->). induction a as [|c a IH].
  - change (EmptyString +:+ n +:+ b) with (n +:+ b).
    now rewrite is_substring_unfold, prefix_append.
  - change (String c a +:+ n +:+ b) with (String c (a +:+ n +:+ b)).
    rewrite is_substring_unfold, IH. apply orb_true_r.
Qed.

(** The template keeps the code text and the instruction text as they
    are; Python's [in] finds both. *)
Lemma build_prompt_holds_code (C : string) :
  occurs_in C (build_prompt (VStr C))
  ∧ occurs_in instruction_text (build_prompt (VStr C))
  ∧ is_substring C (build_prompt (VStr C)) = true
  ∧ is_substring instruction_text (build_prompt (VStr C)) = true.
Proof.
  assert (HC : occurs_in C (build_prompt (VStr C))).
  { exists (instruction_text +:+ "Code:" +:+ newline),
           (newline +:+ newline +:+ "Documentation:").
    reflexivity. }
  assert (HI : occurs_in instruction_text (build_prompt (VStr C))).
  { exists EmptyString,
           ("Code:" +:+ newline +:+ C +:+ newline +:+ newline
            +:+ "Documentation:").
    reflexivity. }
  repeat split; auto using is_substring_occurs.
Qed.

(** ** The statements at concrete inputs *)

(** C5, as stated, fails: the posted body [[]] has no [code] field, and
    the view does not answer 400. *)
Lemma missing_code_is_not_always_400 :
  ¬ (∀ (w : World) (request : FlaskRequest) (tr : list Event),
        code_field request = None ∨ code_field request = Some (VStr EmptyString) →
        ∃ body : value,
          generate_docs w request tr = (Ret (mk_reply body 400), tr)).
Proof.
  intros Hall.
  destruct (Hall world_no_keys request_array [] (or_introl eq_refl))
    as [body Hrun].
  vm_compute in Hrun. discriminate Hrun.
Qed.

Lemma missing_code_in_object_is_400_witness :
  generate_docs world_no_keys request_without_code []
  = (Ret (mk_reply (VDict [("error", VStr "No code provided")]) 400), []).
Proof.
  apply (missing_code_in_object_is_400 world_no_keys request_without_code
           [("language", VStr "python")] []).
  - reflexivity.
  - left. reflexivity.
Defined.

Lemma no_matching_credential_is_400_witness :
  generate_docs world_wrong_keys request_with_code []
  = (Ret (mk_reply
            (VDict [("error",
                     VStr "No API key found. Set HUGGINGFACE_API_KEY (hf_...) or OPENAI_API_KEY (sk_...).")])
            400),
     []).
Proof.
  apply (no_matching_credential_is_400 world_wrong_keys request_with_code
           (VStr "x = 1") []).
  - reflexivity.
  - reflexivity.
  - intros k Hk. vm_compute in Hk. injection Hk as <-. reflexivity.
  - intros k Hk. vm_compute in Hk. injection Hk as <-. reflexivity.
Defined.

Lemma unreadable_payload_is_500_witness :
  generate_docs world_no_keys request_undecodable []
  = (Ret (mk_reply
            (VDict [("error",
                     VStr "400 Bad Request: The browser (or proxy) sent a request that this server could not understand.")])
            500),
     []).
Proof.
  apply (unreadable_payload_is_500 world_no_keys request_undecodable
           (Error "400 Bad Request: The browser (or proxy) sent a request that this server could not understand.")
           []).
  reflexivity.
Defined.

Lemma call_openai_without_client_witness :
  call_openai world_no_keys "p" "sk-demo" "gpt-3.5-turbo" []
  = (Ret (false, VStr "OpenAI client not installed in environment."), []).
Proof.
  apply (call_openai_without_client world_no_keys "p" "sk-demo"
           "gpt-3.5-turbo" []).
  reflexivity.
Defined.



(** ** More on [call_huggingface]: the primary request *)

Section PrimaryRequest.

Variable w : World.
Variables prompt hf_key model : string.
Variable tr : list Event.

(** After a 200, [call_huggingface] is [parse_response] under its
    handler. *)
Lemma call_huggingface_200 (resp : Response) :
  requests_post w tr (hf_request prompt hf_key model) = Ret resp →
  status_code resp = 200 →
  call_huggingface w prompt hf_key model tr
  = match parse_response resp
            (tr ++ [Post (hf_request prompt hf_key model)])%list with
    | (Ret out, tr') => (Ret out, tr')
    | (Raise e, tr') =>
        (Ret (false, VStr ("Parse error: " +:+ str_exn e)), tr')
    end.
Proof.
  intros Hpost H200. unfold call_huggingface.
  unfold bind at 1, try_except at 1. unfold bind at 1.
  rewrite post_run, Hpost. cbn. rewrite H200. cbn. unfold try_except.
  now destruct (parse_response resp _) as [[out|e] tr'].
Qed.

(** X1. When the primary request itself raises, the result is the
    failure ["Request error: " + str(e)]; the request is not repeated
    and no fallback model is asked. *)
Theorem transport_error_is_failure_without_retry (e : exn) :
  requests_post w tr (hf_request prompt hf_key model) = Raise e →
  call_huggingface w prompt hf_key model tr
  = (Ret (false, VStr ("Request error: " +:+ str_exn e)),
     (tr ++ [Post (hf_request prompt hf_key model)])%list).
Proof.
  intros Hpost. unfold call_huggingface.
  unfold bind at 1, try_except at 1. unfold bind at 1.
  now rewrite post_run, Hpost.
Qed.

(** X2. A primary answer whose status is neither 200 nor 404 gives the
    failure built from its status code and its payload (the raw text
    when the payload does not decode), after that single request: the
    fallback models are asked on a 404 only. *)
Theorem other_status_is_failure_without_fallback (resp : Response) :
  requests_post w tr (hf_request prompt hf_key model) = Ret resp →
  status_code resp ≠ 200 →
  status_code resp ≠ 404 →
  call_huggingface w prompt hf_key model tr
  = (Ret (false,
          VStr ("Error " +:+ str_int (status_code resp) +:+ ": " +:+
                match json resp with
                | Ret j => str j
                | Raise _ => text resp
                end)),
     (tr ++ [Post (hf_request prompt hf_key model)])%list).
Proof.
  intros Hpost H200 H404. unfold call_huggingface.
  unfold bind at 1, try_except at 1. unfold bind at 1.
  rewrite post_run, Hpost. cbn.
  apply Z.eqb_neq in H200, H404. rewrite H200, H404. cbn.
  now rewrite generic_error_run.
Qed.

(** X3. A 200 answer whose body is a list starting with a mapping that
    has the key ["generated_text"] gives that entry as the success,
    whatever follows in the list. *)
Theorem list_body_gives_first_generated_text (resp : Response)
    (d : list (string * value)) (rest : list value) (t : value) :
  requests_post w tr (hf_request prompt hf_key model) = Ret resp →
  status_code resp = 200 →
  json resp = Ret (VList (VDict d :: rest)) →
  lookup_key "generated_text" d = Some t →
  call_huggingface w prompt hf_key model tr
  = (Ret (true, t), (tr ++ [Post (hf_request prompt hf_key model)])%list).
Proof.
  intros Hpost H200 Hbody Hkey.
  rewrite (call_huggingface_200 resp Hpost H200).
  unfold parse_response, bind at 1, lift at 1. rewrite Hbody.
  cbn. rewrite Hkey. cbn. now rewrite Hkey.
Qed.

(** X4. A 200 answer whose body does not decode gives the failure
    ["Parse error: " + str(e)]. *)
Theorem undecodable_body_is_parse_error (resp : Response) (e : exn) :
  requests_post w tr (hf_request prompt hf_key model) = Ret resp →
  status_code resp = 200 →
  json resp = Raise e →
  call_huggingface w prompt hf_key model tr
  = (Ret (false, VStr ("Parse error: " +:+ str_exn e)),
     (tr ++ [Post (hf_request prompt hf_key model)])%list).
Proof.
  intros Hpost H200 Hbody.
  rewrite (call_huggingface_200 resp Hpost H200).
  unfold parse_response, bind at 1, lift at 1. now rewrite Hbody.
Qed.

(** X5. In a 200 answer whose body is a mapping, the key
    ["generated_text"] wins: its entry is the success even when the
    mapping also has an ["error"] or a ["choices"] key. *)
Theorem generated_text_key_wins (resp : Response)
    (d : list (string * value)) (t : value) :
  requests_post w tr (hf_request prompt hf_key model) = Ret resp →
  status_code resp = 200 →
  json resp = Ret (VDict d) →
  lookup_key "generated_text" d = Some t →
  call_huggingface w prompt hf_key model tr
  = (Ret (true, t), (tr ++ [Post (hf_request prompt hf_key model)])%list).
Proof.
  intros Hpost H200 Hbody Hkey.
  rewrite (call_huggingface_200 resp Hpost H200).
  unfold parse_response, bind at 1, lift at 1. rewrite Hbody.
  cbn. now rewrite Hkey.
Qed.

(** X6. In a 200 answer whose body is a mapping without
    ["generated_text"], an ["error"] entry of any type gives the failure
    ["HF error: " + str(entry)], even when the mapping also has usable
    ["choices"]. *)
Theorem error_key_is_failure (resp : Response)
    (d : list (string * value)) (err : value) :
  requests_post w tr (hf_request prompt hf_key model) = Ret resp →
  status_code resp = 200 →
  json resp = Ret (VDict d) →
  lookup_key "generated_text" d = None →
  lookup_key "error" d = Some err →
  call_huggingface w prompt hf_key model tr
  = (Ret (false, VStr ("HF error: " +:+ str err)),
     (tr ++ [Post (hf_request prompt hf_key model)])%list).
Proof.
  intros Hpost H200 Hbody Hgen Herr.
  rewrite (call_huggingface_200 resp Hpost H200).
  unfold parse_response, bind at 1, lift at 1. rewrite Hbody.
  cbn. rewrite Hgen. cbn. now rewrite Herr.
Qed.

(** X7. In a 200 answer whose body is a mapping with neither
    ["generated_text"] nor ["error"], a ["choices"] list starting with
    a mapping that has the key ["text"] gives that entry as the
    success. *)
Theorem first_choice_text_is_success (resp : Response)
    (d c : list (string * value)) (rest : list value) (t : value) :
  requests_post w tr (hf_request prompt hf_key model) = Ret resp →
  status_code resp = 200 →
  json resp = Ret (VDict d) →
  lookup_key "generated_text" d = None →
  lookup_key "error" d = None →
  lookup_key "choices" d = Some (VList (VDict c :: rest)) →
  lookup_key "text" c = Some t →
  call_huggingface w prompt hf_key model tr
  = (Ret (true, t), (tr ++ [Post (hf_request prompt hf_key model)])%list).
Proof.
  intros Hpost H200 Hbody Hgen Herr Hch Htext.
  rewrite (call_huggingface_200 resp Hpost H200).
  unfold parse_response, bind at 1, lift at 1. rewrite Hbody.
  cbn. rewrite Hgen. cbn. rewrite Herr. cbn.
  unfold first_choice_has_text, first_choice_text, and_then, bind, lift, ret.
  cbn. rewrite Hch. cbn. now rewrite Htext.
Qed.

(** X8. A 200 answer whose body is neither a mapping nor a non-empty
    list (a text, a number, [null], a boolean, the empty list) is never
    a failure: the result is the success carrying [str(body)]. *)
Theorem other_body_is_stringified (resp : Response) (data : value) :
  requests_post w tr (hf_request prompt hf_key model) = Ret resp →
  status_code resp = 200 →
  json resp = Ret data →
  isinstance_dict data = false →
  (∀ x l, data ≠ VList (x :: l)) →
  call_huggingface w prompt hf_key model tr
  = (Ret (true, VStr (str data)),
     (tr ++ [Post (hf_request prompt hf_key model)])%list).
Proof.
  intros Hpost H200 Hbody Hdict Hlist.
  rewrite (call_huggingface_200 resp Hpost H200).
  unfold parse_response, bind at 1, lift at 1. rewrite Hbody.
  destruct data as [| | | | |[|x l]|]; try discriminate Hdict;
    try reflexivity.
  now destruct (Hlist x l).
Qed.

(** X25. A 200 answer whose body is a list starting with [null], a
    boolean or a number is a failure, although the bare value would be
    stringified as a success: the membership test on the first element
    raises, and the result is a ["Parse error: ..."] message. *)
Theorem list_of_scalars_is_parse_error (resp : Response)
    (x : value) (rest : list value) :
  requests_post w tr (hf_request prompt hf_key model) = Ret resp →
  status_code resp = 200 →
  json resp = Ret (VList (x :: rest)) →
  is_scalar x = true →
  ∃ msg : string,
    call_huggingface w prompt hf_key model tr
    = (Ret (false, VStr ("Parse error: " +:+ msg)),
       (tr ++ [Post (hf_request prompt hf_key model)])%list).
Proof.
  intros Hpost H200 Hbody Hscalar.
  rewrite (call_huggingface_200 resp Hpost H200).
  unfold parse_response, bind at 1, lift at 1. rewrite Hbody.
  destruct x; try discriminate Hscalar; eexists; reflexivity.
Qed.

End PrimaryRequest.

(** ** More on [call_huggingface]: the fallback loop *)

Lemma fallback_posts_app (prompt hf_key : string) (l1 l2 : list string) :
  fallback_posts prompt hf_key (l1 ++ l2)
  = (fallback_posts prompt hf_key l1 ++ fallback_posts prompt hf_key l2)%list.
Proof. apply List.map_app. Qed.

(** Failed attempts are passed over, one request each. *)
Lemma try_fallbacks_skip_all (w : World) (prompt hf_key : string)
    (pre rest : list string) :
  ∀ tr : list Event,
    (∀ (p1 : list string) (m : string) (p2 : list string),
        pre = (p1 ++ m :: p2)%list →
        attempt_fails
          (requests_post w (tr ++ fallback_posts prompt hf_key p1)%list
             (hf_request prompt hf_key m))) →
    try_fallbacks w prompt hf_key (pre ++ rest) tr
    = try_fallbacks w prompt hf_key rest
        (tr ++ fallback_posts prompt hf_key pre)%list.
Proof.
  induction pre as [|m pre IH]; intros tr Hpre.
  - cbn. now rewrite app_nil_r.
  - cbn [app]. rewrite try_fallbacks_skip.
    + rewrite IH.
      * cbn. now rewrite <- app_assoc.
      * intros p1 m' p2 ->.
        specialize (Hpre (m :: p1) m' p2 eq_refl).
        cbn in Hpre. now rewrite <- app_assoc.
    + specialize (Hpre [] m pre eq_refl). cbn in Hpre.
      now rewrite app_nil_r in Hpre.
Qed.

Section FallbackAnswer.

Variable w : World.
Variables prompt hf_key model : string.
Variable tr : list Event.
Variables resp resp2 : Response.
Variables (pre : list string) (fm : string) (suf : list string).

(** The primary model is unknown; the fallback models before [fm] all
    fail; [fm] answers 200. *)
Hypothesis Hprimary :
  requests_post w tr (hf_request prompt hf_key model) = Ret resp.
Hypothesis H404 : status_code resp = 404.
Hypothesis Hmodels : fallback_models w = (pre ++ fm :: suf)%list.
Hypothesis Hskipped :
  ∀ (p1 : list string) (m : string) (p2 : list string),
    pre = (p1 ++ m :: p2)%list →
    attempt_fails
      (requests_post w
         (tr ++ Post (hf_request prompt hf_key model)
             :: fallback_posts prompt hf_key p1)%list
         (hf_request prompt hf_key m)).
Hypothesis Hanswer :
  requests_post w
    (tr ++ Post (hf_request prompt hf_key model)
        :: fallback_posts prompt hf_key pre)%list
    (hf_request prompt hf_key fm)
  = Ret resp2.
Hypothesis H200 : status_code resp2 = 200.

Lemma call_huggingface_fallback_200 :
  call_huggingface w prompt hf_key model tr
  = match parse_fallback resp2
            (tr ++ Post (hf_request prompt hf_key model)
                :: fallback_posts prompt hf_key (pre ++ [fm]))%list with
    | (Ret out, tr') => (Ret out, tr')
    | (Raise _, tr') =>
        (Ret (false, VStr ("Parse error from fallback model " +:+ fm)), tr')
    end.
Proof.
  rewrite (call_huggingface_404 w prompt hf_key model tr resp Hprimary H404).
  rewrite Hmodels, try_fallbacks_skip_all.
  - rewrite <- app_assoc. cbn [app].
    rewrite (try_fallbacks_first_200 w prompt hf_key fm suf _ resp2 Hanswer
               H200).
    rewrite fallback_posts_app, <- !app_assoc. cbn.
    now destruct (parse_fallback resp2 _) as [[out|e] tr'].
  - intros p1 m p2 Hsplit. rewrite <- app_assoc.
    exact (Hskipped p1 m p2 Hsplit).
Qed.

(** X9. After a 404 the fallback models are asked in order; the ones
    that raise or answer another status than 200 are passed over, and
    the first 200 answer ends the loop.  When its body is a mapping
    with the key ["generated_text"], that entry is the success, and no
    model after it is asked. *)
Theorem fallback_skips_to_first_200
    (d : list (string * value)) (t : value) :
  json resp2 = Ret (VDict d) →
  lookup_key "generated_text" d = Some t →
  call_huggingface w prompt hf_key model tr
  = (Ret (true, t),
     (tr ++ Post (hf_request prompt hf_key model)
         :: fallback_posts prompt hf_key (pre ++ [fm]))%list).
Proof.
  intros Hbody Hkey. rewrite call_huggingface_fallback_200.
  unfold parse_fallback, bind at 1, lift at 1. rewrite Hbody.
  cbn. now rewrite Hkey.
Qed.

(** X10. When the body of the first 200 answer of a fallback model does
    not decode, the loop ends all the same: the result is the failure
    ["Parse error from fallback model " + fm], and the models after it
    are not asked. *)
Theorem fallback_undecodable_body_ends_loop (e : exn) :
  json resp2 = Raise e →
  call_huggingface w prompt hf_key model tr
  = (Ret (false, VStr ("Parse error from fallback model " +:+ fm)),
     (tr ++ Post (hf_request prompt hf_key model)
         :: fallback_posts prompt hf_key (pre ++ [fm]))%list).
Proof.
  intros Hbody. rewrite call_huggingface_fallback_200.
  unfold parse_fallback, bind at 1, lift at 1. now rewrite Hbody.
Qed.

(** X11. On the fallback path a mapping with neither
    ["generated_text"] nor ["choices"] is stringified and returned as a
    success, whatever else it holds, an ["error"] entry included. *)
Theorem fallback_mapping_is_stringified (d : list (string * value)) :
  json resp2 = Ret (VDict d) →
  lookup_key "generated_text" d = None →
  lookup_key "choices" d = None →
  call_huggingface w prompt hf_key model tr
  = (Ret (true, VStr (str (VDict d))),
     (tr ++ Post (hf_request prompt hf_key model)
         :: fallback_posts prompt hf_key (pre ++ [fm]))%list).
Proof.
  intros Hbody Hgen Hch. rewrite call_huggingface_fallback_200.
  unfold parse_fallback, bind at 1, lift at 1. rewrite Hbody.
  cbn. rewrite Hgen. cbn.
  unfold first_choice_has_text, and_then, bind, lift, ret.
  cbn. now rewrite Hch.
Qed.

End FallbackAnswer.

(** ** Outbound calls of [call_huggingface] *)

Section Silence.

Context {A : Type}.

Lemma silent_ret (a : A) : silent (ret a).
Proof. now intros tr. Qed.

Lemma silent_lift (r : res A) : silent (lift r).
Proof. now intros tr. Qed.

Lemma silent_try (m : M A) (h : exn → M A) :
  silent m → (∀ e, silent (h e)) → silent (try_except m h).
Proof.
  intros Hm Hh tr. unfold try_except. specialize (Hm tr).
  destruct (m tr) as [[a|e] tr']; cbn in Hm; subst tr'; [reflexivity|].
  apply Hh.
Qed.

End Silence.

Lemma silent_bind {A B : Type} (m : M A) (f : A → M B) :
  silent m → (∀ a, silent (f a)) → silent (bind m f).
Proof.
  intros Hm Hf tr. unfold bind. specialize (Hm tr).
  destruct (m tr) as [[a|e] tr']; cbn in Hm; subst tr'; [|reflexivity].
  apply Hf.
Qed.

Lemma silent_and_then (a b : M bool) :
  silent a → silent b → silent (a &&& b).
Proof.
  intros Ha Hb. apply silent_bind; [exact Ha|].
  intros [|]; [exact Hb | apply silent_ret].
Qed.

Ltac quiet :=
  repeat
    lazymatch goal with
    | |- silent (ret _) => apply silent_ret
    | |- silent (lift _) => apply silent_lift
    | |- silent (bind _ _) => apply silent_bind; [|intros ?]
    | |- silent (_ &&& _) => apply silent_and_then
    | |- silent (try_except _ _) => apply silent_try; [|intros ?]
    | |- silent (if ?b then _ else _) => destruct b
    end.

Lemma parse_fallback_silent (resp2 : Response) : silent (parse_fallback resp2).
Proof.
  unfold parse_fallback, first_has_generated_text, first_choice_has_text,
    first_generated_text, first_choice_text.
  quiet.
Qed.

Lemma parse_response_silent (resp : Response) : silent (parse_response resp).
Proof.
  unfold parse_response, first_has_generated_text, first_choice_has_text,
    first_generated_text, first_choice_text.
  quiet.
Qed.

(** The loop asks a front part of the list, each model once, in order. *)
Lemma try_fallbacks_trace (w : World) (prompt hf_key : string)
    (fms : list string) :
  ∀ tr : list Event,
    ∃ k : nat,
      (k ≤ List.length fms)%nat
      ∧ snd (try_fallbacks w prompt hf_key fms tr)
        = (tr ++ fallback_posts prompt hf_key (take k fms))%list.
Proof.
  induction fms as [|fm rest IH]; intros tr.
  - exists 0%nat. cbn. now rewrite app_nil_r.
  - cbn [try_fallbacks]. unfold bind at 1, try_except at 1, bind at 1.
    rewrite post_run.
    assert (Hnext :
      ∃ k : nat,
        (k ≤ List.length (fm :: rest))%nat
        ∧ snd (try_fallbacks w prompt hf_key rest
                 (tr ++ [Post (hf_request prompt hf_key fm)])%list)
          = (tr ++ fallback_posts prompt hf_key (take k (fm :: rest)))%list).
    { destruct (IH (tr ++ [Post (hf_request prompt hf_key fm)])%list)
        as (k & Hk & Htrace).
      exists (S k). split; [cbn; lia|].
      rewrite Htrace. cbn. now rewrite <- app_assoc. }
    destruct (requests_post w tr (hf_request prompt hf_key fm))
      as [resp2|e]; cbn; [|exact Hnext].
    destruct (status_code resp2 =? 200); [|exact Hnext].
    exists 1%nat. split; [cbn; lia|].
    assert (Hsilent :
      silent
        (try_except
           (p <- parse_fallback resp2 ;; ret (Some p))
           (λ _, ret (Some (false,
                            VStr ("Parse error from fallback model " +:+ fm)))))).
    { quiet. apply parse_fallback_silent. }
    rewrite Hsilent. cbn. now rewrite firstn_O.
Qed.

Lemma call_huggingface_trace
    (w : World) (prompt hf_key model : string) (tr : list Event) :
  ∃ k : nat,
    (k ≤ List.length (fallback_models w))%nat
    ∧ snd (call_huggingface w prompt hf_key model tr)
      = (tr ++ Post (hf_request prompt hf_key model)
            :: fallback_posts prompt hf_key (take k (fallback_models w)))%list.
Proof.
  unfold call_huggingface.
  unfold bind at 1, try_except at 1. unfold bind at 1. rewrite post_run.
  destruct (requests_post w tr (hf_request prompt hf_key model))
    as [resp|e]; cbn.
  - destruct (status_code resp =? 200); cbn.
    + exists 0%nat. split; [lia|].
      assert (Hsilent :
        silent
          (try_except (parse_response resp)
             (λ e, ret (false, VStr ("Parse error: " +:+ str_exn e))))).
      { quiet. apply parse_response_silent. }
      rewrite Hsilent. now rewrite firstn_O.
    + destruct (status_code resp =? 404).
      * destruct (try_fallbacks_trace w prompt hf_key (fallback_models w)
                    (tr ++ [Post (hf_request prompt hf_key model)])%list)
          as (k & Hk & Htrace).
        exists k. split; [exact Hk|].
        unfold bind.
        destruct (try_fallbacks w prompt hf_key _ _) as [[[out|]|e] tr'];
          cbn in Htrace; subst tr'; cbn; rewrite ?generic_error_run;
          cbn; now rewrite <- app_assoc.
      * exists 0%nat. split; [lia|].
        unfold bind, ret. rewrite generic_error_run. now rewrite firstn_O.
  - exists 0%nat. split; [lia|]. now rewrite firstn_O.
Qed.

(** X12. Whatever the network answers, the calls made by
    [call_huggingface] are the primary request followed by requests to
    a front part of the fallback list, in its order and each model at
    most once: never more than one plus the length of the list, never a
    call to the chat client, and each request with the headers, payload
    and timeout of the primary one. *)
Theorem call_huggingface_calls_are_bounded
    (w : World) (prompt hf_key model : string) (tr : list Event) :
  ∃ k : nat,
    (k ≤ List.length (fallback_models w))%nat
    ∧ snd (call_huggingface w prompt hf_key model tr)
      = (tr ++ Post (mk_request
                       ("https://router.huggingface.co/hf-inference/"
                        +:+ model)
                       (hf_headers hf_key) (hf_payload prompt) 60)
            :: List.map
                 (λ fm,
                    Post (mk_request
                            ("https://router.huggingface.co/hf-inference/"
                             +:+ fm)
                            (hf_headers hf_key) (hf_payload prompt) 60))
                 (take k (fallback_models w)))%list.
Proof. apply call_huggingface_trace. Qed.

(** ** The list of fallback models *)

Lemma lstrip_cases (s : string) :
  lstrip s = EmptyString
  ∨ ∃ c s', lstrip s = String c s' ∧ isspace c = false.
Proof.
  induction s as [|c s IH]; [now left|].
  cbn. destruct (isspace c) eqn:Hc; [exact IH|].
  right. now exists c, s.
Qed.

Lemma rstrip_keeps_head (c : ascii) (s : string) :
  isspace c = false → ∃ r, rstrip (String c s) = String c r.
Proof.
  intros Hc. cbn. rewrite Hc. destruct (rstrip s) as [|c' r]; eauto.
Qed.

Lemma rstrip_idempotent (s : string) : rstrip (rstrip s) = rstrip s.
Proof.
  induction s as [|c s IH]; [reflexivity|].
  cbn. destruct (rstrip s) as [|c' r] eqn:Hr.
  - destruct (isspace c) eqn:Hc; [reflexivity|]. cbn. now rewrite Hc.
  - change (rstrip (String c (String c' r)))
      with (match rstrip (String c' r) with
            | EmptyString =>
                if isspace c then EmptyString else String c EmptyString
            | r' => String c r'
            end).
    now rewrite IH.
Qed.

Lemma strip_idempotent (s : string) : strip (strip s) = strip s.
Proof.
  unfold strip. destruct (lstrip_cases s) as [-> | (c & s' & -> & Hc)].
  - reflexivity.
  - destruct (rstrip_keeps_head c s' Hc) as [r Hr].
    rewrite Hr. cbn [lstrip]. rewrite Hc, <- Hr. apply rstrip_idempotent.
Qed.

Lemma override_is_clean (parts : list string) :
  Forall clean_name
    (List.map strip
       (List.filter (λ m, negb (String.eqb (strip m) EmptyString)) parts)).
Proof.
  induction parts as [|m parts IH]; [constructor|].
  cbn. destruct (String.eqb (strip m) EmptyString) eqn:Hm; cbn; [exact IH|].
  constructor; [|exact IH]. split; [|apply strip_idempotent].
  intros Hempty. rewrite Hempty in Hm. discriminate Hm.
Qed.

(** X13. Whatever the environment holds, no entry of the fallback list
    is empty and none has a blank at either end: the entries of an
    override are stripped and the blank ones are dropped. *)
Theorem fallback_models_are_clean (w : World) :
  Forall clean_name (fallback_models w).
Proof.
  assert (Hdefault : Forall clean_name default_fallback_models).
  { repeat constructor; discriminate. }
  unfold fallback_models.
  destruct (environ w !! "HUGGINGFACE_FALLBACK_MODELS") as [s|];
    [|exact Hdefault].
  destruct (String.eqb s EmptyString); [exact Hdefault|].
  apply override_is_clean.
Qed.

Lemma split_only_separators (s : string) :
  only_separators s = true →
  Forall (λ p, only_blanks p = true) (split "," s).
Proof.
  induction s as [|c s IH]; intros Hs; [now repeat constructor|].
  cbn in Hs. apply andb_prop in Hs as [Hc Hs]. specialize (IH Hs).
  cbn. destruct (Ascii.eqb c ",") eqn:Hcomma.
  - now constructor.
  - cbn in Hc. destruct IH as [|h t Hh Ht].
    + repeat constructor. cbn. now rewrite Hc.
    + constructor; [|exact Ht]. cbn. now rewrite Hc, Hh.
Qed.

Lemma strip_only_blanks (p : string) :
  only_blanks p = true → strip p = EmptyString.
Proof.
  unfold strip. induction p as [|c p IH]; [reflexivity|].
  cbn. intros Hp. apply andb_prop in Hp as [Hc Hp]. rewrite Hc. now apply IH.
Qed.

Lemma blank_parts_are_dropped (parts : list string) :
  Forall (λ p, only_blanks p = true) parts →
  List.map strip
    (List.filter (λ m, negb (String.eqb (strip m) EmptyString)) parts)
  = [].
Proof.
  induction 1 as [|p parts Hp _ IH]; [reflexivity|].
  cbn. now rewrite (strip_only_blanks p Hp).
Qed.

(** X14. An override of the fallback list made of commas and blanks
    only leaves no model to fall back to: a 404 of the primary model is
    then reported from that answer after the single request. *)
Theorem blank_override_disables_fallback
    (w : World) (prompt hf_key model s : string) (tr : list Event)
    (resp : Response) :
  environ w !! "HUGGINGFACE_FALLBACK_MODELS" = Some s →
  s ≠ EmptyString →
  only_separators s = true →
  requests_post w tr (hf_request prompt hf_key model) = Ret resp →
  status_code resp = 404 →
  call_huggingface w prompt hf_key model tr
  = (Ret (false,
          VStr ("Error 404: " +:+
                match json resp with
                | Ret j => str j
                | Raise _ => text resp
                end)),
     (tr ++ [Post (hf_request prompt hf_key model)])%list).
Proof.
  intros Henv Hne Hsep Hpost H404.
  rewrite (call_huggingface_404 w prompt hf_key model tr resp Hpost H404).
  unfold fallback_models. rewrite Henv.
  apply String.eqb_neq in Hne. rewrite Hne.
  rewrite (blank_parts_are_dropped _ (split_only_separators s Hsep)).
  cbn. rewrite generic_error_run. unfold original_error. now rewrite H404.
Qed.

(** ** More on [call_openai] *)

Section ChatClient.

Variable w : World.
Variable sdk : Sdk.
Variables prompt openai_key model : string.
Variable tr : list Event.

Hypothesis Hsdk : OpenAI w = Some sdk.

(** X15. When building the chat client raises, the result is the
    failure carrying [str(e)] and no call is made. *)
Theorem client_constructor_error_is_failure (e : exn) :
  new_client sdk openai_key = Raise e →
  call_openai w prompt openai_key model tr
  = (Ret (false, VStr (str_exn e)), tr).
Proof.
  intros Hnew. unfold call_openai. rewrite Hsdk.
  unfold try_except, bind at 1, lift at 1. now rewrite Hnew.
Qed.

(** X16. When the chat call raises, the result is the failure carrying
    [str(e)]; the call has been made once and is not repeated. *)
Theorem chat_call_error_is_failure_without_retry (e : exn) :
  new_client sdk openai_key = Ret tt →
  chat_create sdk tr openai_key (chat_request prompt model) = Raise e →
  call_openai w prompt openai_key model tr
  = (Ret (false, VStr (str_exn e)),
     (tr ++ [ChatCreate openai_key (chat_request prompt model)])%list).
Proof.
  intros Hnew Hcall. unfold call_openai. rewrite Hsdk.
  unfold try_except at 1, bind at 1, lift at 1. rewrite Hnew.
  unfold bind at 1, create. now rewrite Hcall.
Qed.

(** X17. The text of a completion is read in three tries, the first
    that works winning: the attributes, then the subscripts, then
    [str(response)]; each is a success.  Only when [str(response)]
    raises too is the result a failure, carrying that last exception. *)
Theorem completion_is_read_in_three_tries (response : Completion) :
  new_client sdk openai_key = Ret tt →
  chat_create sdk tr openai_key (chat_request prompt model) = Ret response →
  call_openai w prompt openai_key model tr
  = (Ret match attr_content response with
         | Ret c => (true, c)
         | Raise _ =>
             match item_content response with
             | Ret c => (true, c)
             | Raise _ =>
                 match completion_str response with
                 | Ret t => (true, VStr t)
                 | Raise e => (false, VStr (str_exn e))
                 end
             end
         end,
     (tr ++ [ChatCreate openai_key (chat_request prompt model)])%list).
Proof.
  intros Hnew Hcall. unfold call_openai. rewrite Hsdk.
  unfold try_except at 1, bind at 1, lift at 1. rewrite Hnew.
  unfold bind at 1, create. rewrite Hcall.
  unfold try_except, bind, lift, ret.
  destruct (attr_content response) as [c|e1]; [reflexivity|].
  destruct (item_content response) as [c|e2]; [reflexivity|].
  now destruct (completion_str response) as [t|e3].
Qed.

End ChatClient.

Lemma call_openai_trace
    (w : World) (prompt openai_key model : string) (tr : list Event) :
  snd (call_openai w prompt openai_key model tr)
  = match OpenAI w with
    | None => tr
    | Some sdk =>
        match new_client sdk openai_key with
        | Raise _ => tr
        | Ret _ =>
            (tr ++ [ChatCreate openai_key (chat_request prompt model)])%list
        end
    end.
Proof.
  unfold call_openai. destruct (OpenAI w) as [sdk|]; [|reflexivity].
  unfold try_except at 1, bind at 1, lift at 1.
  destruct (new_client sdk openai_key) as [[]|e]; [|reflexivity].
  unfold bind at 1, create.
  destruct (chat_create sdk tr openai_key (chat_request prompt model))
    as [response|e]; [|reflexivity].
  assert (Hsilent :
    silent
      (try_except
         (c <- lift (attr_content response) ;; ret (true, c))
         (λ _,
            try_except
              (c <- lift (item_content response) ;; ret (true, c))
              (λ _,
                 t <- lift (completion_str response) ;; ret (true, VStr t))))).
  { quiet. }
  specialize
    (Hsilent (tr ++ [ChatCreate openai_key (chat_request prompt model)])%list).
  destruct (try_except _ _ _) as [[out|e] tr']; cbn in Hsilent; now subst tr'.
Qed.

(** X18. Whatever the chat client does, [call_openai] makes no HTTP
    request and at most one chat call, the one carrying the key, the
    model, the fixed system message and the prompt. *)
Theorem call_openai_calls_at_most_once
    (w : World) (prompt openai_key model : string) (tr : list Event) :
  snd (call_openai w prompt openai_key model tr) = tr
  ∨ snd (call_openai w prompt openai_key model tr)
    = (tr ++ [ChatCreate openai_key
                (mk_chat model
                   [[("role", "system"); ("content", system_message)];
                    [("role", "user"); ("content", prompt)]])])%list.
Proof.
  rewrite call_openai_trace. destruct (OpenAI w) as [sdk|]; [|now left].
  destruct (new_client sdk openai_key); [now right | now left].
Qed.

(** ** More on [generate_docs] *)

Section View.

Variable w : World.
Variable request : FlaskRequest.
Variable tr : list Event.

Lemma generate_docs_unreadable (e : exn) :
  read_code request = Raise e →
  generate_docs w request tr
  = (Ret (jsonify_error (VStr (str_exn e)) 500), tr).
Proof.
  unfold read_code, generate_docs. intros Hread.
  unfold try_except, bind at 1, lift at 1.
  destruct (request_json request) as [body|e0].
  - unfold bind at 1, lift at 1. now rewrite Hread.
  - now injection Hread as ->.
Qed.

Lemma generate_docs_falsy (code : value) :
  read_code request = Ret code →
  truthy code = false →
  generate_docs w request tr
  = (Ret (jsonify_error (VStr "No code provided") 400), tr).
Proof.
  unfold read_code. intros Hread Hfalsy.
  destruct (request_json request) as [[| | | | | |d]|e] eqn:Hbody;
    try discriminate Hread.
  apply (generate_docs_falsy_code w request d tr Hbody).
  cbn in Hread. now injection Hread as ->.
Qed.

Lemma read_code_field (code : value) :
  read_code request = Ret code →
  truthy code = true →
  code_field request = Some code.
Proof.
  unfold read_code, code_field. intros Hread Htruthy.
  destruct (request_json request) as [[| | | | | |d]|e];
    try discriminate Hread.
  cbn in Hread. injection Hread as <-.
  now destruct (lookup_key "code" d).
Qed.

Lemma to_reply_well_formed (out : bool * value) :
  failure_has_message out → well_formed_reply (to_reply out).
Proof.
  destruct out as [[|] v]; unfold failure_has_message, to_reply; cbn;
    intros Hmsg.
  - left. eauto.
  - right. destruct (Hmsg eq_refl) as [msg ->]. eauto.
Qed.

(** X19. The view answers every request and lets no exception out.
    Its reply is either the documentation with status 200, or a mapping
    with the single key ["error"] holding a text, with status 400, 500
    or 502. *)
Theorem generate_docs_always_replies :
  ∃ reply tr',
    generate_docs w request tr = (Ret reply, tr')
    ∧ well_formed_reply reply.
Proof.
  destruct (read_code request) as [code|e] eqn:Hread.
  - destruct (truthy code) eqn:Htruthy.
    + rewrite (generate_docs_valid w request code tr
                 (read_code_field code Hread Htruthy) Htruthy).
      destruct (matching_key (environ w !! "HUGGINGFACE_API_KEY") "hf_")
        as [hf_key|].
      * destruct (call_huggingface_returns w (build_prompt code) hf_key
                    (default "google/flan-t5-large"
                       (environ w !! "HUGGINGFACE_MODEL")) tr)
          as (out & tr' & -> & Hout).
        eauto using to_reply_well_formed.
      * destruct (matching_key (environ w !! "OPENAI_API_KEY") "sk-")
          as [openai_key|].
        -- destruct (call_openai_returns w (build_prompt code) openai_key
                       "gpt-3.5-turbo" tr)
             as (out & tr' & -> & Hout).
           eauto using to_reply_well_formed.
        -- eexists _, tr. split; [reflexivity|]. right. cbn. eauto.
    + rewrite (generate_docs_falsy code Hread Htruthy).
      eexists _, tr. split; [reflexivity|]. right. cbn. eauto.
  - rewrite (generate_docs_unreadable e Hread).
    eexists _, tr. split; [reflexivity|]. right. cbn. eauto.
Qed.

(** X20. The status 500 is answered exactly when reading the posted
    payload raises: no failure of a provider is reported as a 500. *)
Theorem status_500_iff_payload_unreadable :
  (∃ e, read_code request = Raise e)
  ↔ ∃ body tr', generate_docs w request tr = (Ret (mk_reply body 500), tr').
Proof.
  split.
  - intros [e Hread]. rewrite (generate_docs_unreadable e Hread).
    now eexists _, tr.
  - intros (body & tr' & Hrun).
    destruct (read_code request) as [code|e] eqn:Hread; [|eauto].
    exfalso. destruct (truthy code) eqn:Htruthy.
    + rewrite (generate_docs_valid w request code tr
                 (read_code_field code Hread Htruthy) Htruthy) in Hrun.
      destruct (matching_key (environ w !! "HUGGINGFACE_API_KEY") "hf_")
        as [hf_key|].
      * destruct (call_huggingface_returns w (build_prompt code) hf_key
                    (default "google/flan-t5-large"
                       (environ w !! "HUGGINGFACE_MODEL")) tr)
          as ([[|] v] & tr0 & Hcall & _);
          rewrite Hcall in Hrun; discriminate Hrun.
      * destruct (matching_key (environ w !! "OPENAI_API_KEY") "sk-")
          as [openai_key|]; [|discriminate Hrun].
        destruct (call_openai_returns w (build_prompt code) openai_key
                    "gpt-3.5-turbo" tr)
          as ([[|] v] & tr0 & Hcall & _);
          rewrite Hcall in Hrun; discriminate Hrun.
    + rewrite (generate_docs_falsy code Hread Htruthy) in Hrun.
      discriminate Hrun.
Qed.

(** X21. A [code] that is present but falsy ([0], [false], [null], an
    empty list or mapping, the empty text) is refused like a missing
    one: status 400, ["No code provided"], no outbound call. *)
Theorem falsy_code_is_400 (code : value) :
  code_field request = Some code →
  truthy code = false →
  generate_docs w request tr
  = (Ret (mk_reply (VDict [("error", VStr "No code provided")]) 400), tr).
Proof.
  unfold code_field. intros Hcode Hfalsy.
  destruct (request_json request) as [[| | | | | |d]|e] eqn:Hbody;
    try discriminate Hcode.
  apply (generate_docs_falsy_code w request d tr Hbody).
  now rewrite Hcode.
Qed.

End View.

Lemma fallback_posts_are_posts (prompt hf_key : string) (fms : list string) :
  forallb is_post (fallback_posts prompt hf_key fms) = true.
Proof. induction fms as [|fm fms IH]; [reflexivity | exact IH]. Qed.

Lemma fallback_posts_length (prompt hf_key : string) (fms : list string) :
  List.length (fallback_posts prompt hf_key fms) = List.length fms.
Proof. unfold fallback_posts. apply List.length_map. Qed.

Section Providers_of_the_view.

Variable w : World.
Variable request : FlaskRequest.
Variable tr : list Event.

(** X22. One request reaches one provider at most.  The outbound calls
    of the view are either HTTP requests only, no more than one plus
    the length of the fallback list, or a single chat call at most;
    never both kinds. *)
Theorem generate_docs_contacts_one_provider :
  ∃ new : list Event,
    snd (generate_docs w request tr) = (tr ++ new)%list
    ∧ ((forallb is_post new = true
        ∧ (List.length new ≤ 1 + List.length (fallback_models w))%nat)
       ∨ (forallb is_chat new = true ∧ (List.length new ≤ 1)%nat)).
Proof.
  assert (Hnone :
    ∃ new : list Event,
      tr = (tr ++ new)%list
      ∧ ((forallb is_post new = true
          ∧ (List.length new ≤ 1 + List.length (fallback_models w))%nat)
         ∨ (forallb is_chat new = true ∧ (List.length new ≤ 1)%nat))).
  { exists []. rewrite app_nil_r. split; [reflexivity|].
    right. split; [reflexivity | cbn; lia]. }
  destruct (read_code request) as [code|e] eqn:Hread.
  - destruct (truthy code) eqn:Htruthy.
    + rewrite (generate_docs_valid w request code tr
                 (read_code_field request code Hread Htruthy) Htruthy).
      destruct (matching_key (environ w !! "HUGGINGFACE_API_KEY") "hf_")
        as [hf_key|].
      * destruct (call_huggingface_trace w (build_prompt code) hf_key
                    (default "google/flan-t5-large"
                       (environ w !! "HUGGINGFACE_MODEL")) tr)
          as (k & Hk & Htrace).
        eexists. split.
        -- destruct (call_huggingface w _ _ _ tr) as [[out|e] tr'];
             exact Htrace.
        -- left. split.
           ++ cbn [forallb is_post andb]. apply fallback_posts_are_posts.
           ++ cbn [List.length].
              rewrite fallback_posts_length, length_take. lia.
      * destruct (matching_key (environ w !! "OPENAI_API_KEY") "sk-")
          as [openai_key|]; [|exact Hnone].
        assert (Hsnd :
          snd (match call_openai w (build_prompt code) openai_key
                       "gpt-3.5-turbo" tr with
               | (Ret out, tr') => (Ret (to_reply out), tr')
               | (Raise e, tr') =>
                   (Ret (jsonify_error (VStr (str_exn e)) 500), tr')
               end)
          = snd (call_openai w (build_prompt code) openai_key
                   "gpt-3.5-turbo" tr)).
        { now destruct (call_openai w _ _ _ tr) as [[out|e] tr']. }
        rewrite Hsnd, call_openai_trace.
        destruct (OpenAI w) as [sdk|]; [|exact Hnone].
        destruct (new_client sdk openai_key);
          [|exact Hnone].
        eexists [_]. split; [reflexivity|].
        right. split; [reflexivity | cbn; lia].
    + rewrite (generate_docs_falsy w request tr code Hread Htruthy).
      exact Hnone.
  - rewrite (generate_docs_unreadable w request tr e Hread). exact Hnone.
Qed.

(** X23. With a Hugging Face key that passes the test, a valid request
    goes to the inference router, whatever the OpenAI variable holds:
    the first outbound call posts the prompt built from [code] to the
    model named by [HUGGINGFACE_MODEL] (["google/flan-t5-large"] when
    unset), with the key as bearer token, a limit of 512 new tokens and
    a timeout of 60; any later call is a request to a fallback model. *)
Theorem valid_request_goes_to_configured_model
    (code : value) (hf_key : string) :
  code_field request = Some code →
  truthy code = true →
  matching_key (environ w !! "HUGGINGFACE_API_KEY") "hf_" = Some hf_key →
  ∃ k : nat,
    snd (generate_docs w request tr)
    = (tr ++ Post (mk_request
                     ("https://router.huggingface.co/hf-inference/"
                      +:+ default "google/flan-t5-large"
                            (environ w !! "HUGGINGFACE_MODEL"))
                     [("Authorization", "Bearer " +:+ hf_key);
                      ("Accept", "application/json")]
                     (VDict
                        [("inputs", VStr (build_prompt code));
                         ("options", VDict [("wait_for_model", VBool true)]);
                         ("parameters",
                          VDict [("max_new_tokens", VInt 512)])])
                     60)
          :: fallback_posts (build_prompt code) hf_key
               (take k (fallback_models w)))%list.
Proof.
  intros Hcode Htruthy Hkey.
  rewrite (generate_docs_valid w request code tr Hcode Htruthy), Hkey.
  destruct (call_huggingface_trace w (build_prompt code) hf_key
              (default "google/flan-t5-large"
                 (environ w !! "HUGGINGFACE_MODEL")) tr)
    as (k & _ & Htrace).
  exists k.
  destruct (call_huggingface w _ _ _ tr) as [[out|e] tr']; exact Htrace.
Qed.

(** X24. Without a usable Hugging Face key and with an OpenAI key that
    passes the test, a valid request makes one chat call when the
    client can be built: model ["gpt-3.5-turbo"], the fixed system
    message first, then the prompt built from [code] as the user
    message.  No HTTP request is made. *)
Theorem valid_request_goes_to_chat_model
    (code : value) (openai_key : string) (sdk : Sdk) :
  code_field request = Some code →
  truthy code = true →
  matching_key (environ w !! "HUGGINGFACE_API_KEY") "hf_" = None →
  matching_key (environ w !! "OPENAI_API_KEY") "sk-" = Some openai_key →
  OpenAI w = Some sdk →
  new_client sdk openai_key = Ret tt →
  snd (generate_docs w request tr)
  = (tr ++ [ChatCreate openai_key
              (mk_chat "gpt-3.5-turbo"
                 [[("role", "system");
                   ("content",
                    "You are a technical documentation expert. Generate clear and concise documentation for the given code.")];
                  [("role", "user"); ("content", build_prompt code)]])])%list.
Proof.
  intros Hcode Htruthy Hhf Hkey Hsdk Hnew.
  rewrite (generate_docs_valid w request code tr Hcode Htruthy), Hhf, Hkey.
  pose proof (call_openai_trace w (build_prompt code) openai_key
                "gpt-3.5-turbo" tr) as Htrace.
  rewrite Hsdk, Hnew in Htrace.
  destruct (call_openai w _ _ _ tr) as [[out|e] tr']; exact Htrace.
Qed.

End Providers_of_the_view.

(** ** The further statements at concrete inputs *)

Lemma transport_error_is_failure_without_retry_witness :
  call_huggingface world_unreachable "p" "hf_demo" "org/model" []
  = (Ret (false, VStr "Request error: Connection refused"),
     [Post (hf_request "p" "hf_demo" "org/model")]).
Proof.
  apply (transport_error_is_failure_without_retry world_unreachable
           "p" "hf_demo" "org/model" [] (Error "Connection refused")).
  reflexivity.
Defined.

Lemma other_status_is_failure_without_fallback_witness :
  call_huggingface world_server_error "p" "hf_demo" "org/model" []
  = (Ret (false, VStr "Error 500: Internal Server Error"),
     [Post (hf_request "p" "hf_demo" "org/model")]).
Proof.
  apply (other_status_is_failure_without_fallback world_server_error
           "p" "hf_demo" "org/model" [] server_error);
    [reflexivity | discriminate | discriminate].
Defined.

Lemma list_body_gives_first_generated_text_witness :
  call_huggingface
    (world_answering
       (Ret (VList [VDict [("generated_text", VStr "X")]; VNone])))
    "p" "hf_demo" "org/model" []
  = (Ret (true, VStr "X"), [Post (hf_request "p" "hf_demo" "org/model")]).
Proof.
  apply (list_body_gives_first_generated_text
           (world_answering
              (Ret (VList [VDict [("generated_text", VStr "X")]; VNone])))
           "p" "hf_demo" "org/model" []
           (mk_response 200
              (Ret (VList [VDict [("generated_text", VStr "X")]; VNone]))
              EmptyString)
           [("generated_text", VStr "X")] [VNone] (VStr "X"));
    reflexivity.
Defined.

Lemma undecodable_body_is_parse_error_witness :
  call_huggingface
    (world_answering (Raise (Error "Expecting value")))
    "p" "hf_demo" "org/model" []
  = (Ret (false, VStr "Parse error: Expecting value"),
     [Post (hf_request "p" "hf_demo" "org/model")]).
Proof.
  apply (undecodable_body_is_parse_error
           (world_answering (Raise (Error "Expecting value")))
           "p" "hf_demo" "org/model" []
           (mk_response 200 (Raise (Error "Expecting value")) EmptyString)
           (Error "Expecting value"));
    reflexivity.
Defined.

Lemma generated_text_key_wins_witness :
  call_huggingface
    (world_answering
       (Ret (VDict [("error", VStr "warming up");
                    ("generated_text", VStr "X")])))
    "p" "hf_demo" "org/model" []
  = (Ret (true, VStr "X"), [Post (hf_request "p" "hf_demo" "org/model")]).
Proof.
  apply (generated_text_key_wins
           (world_answering
              (Ret (VDict [("error", VStr "warming up");
                           ("generated_text", VStr "X")])))
           "p" "hf_demo" "org/model" []
           (mk_response 200
              (Ret (VDict [("error", VStr "warming up");
                           ("generated_text", VStr "X")]))
              EmptyString)
           [("error", VStr "warming up"); ("generated_text", VStr "X")]
           (VStr "X"));
    reflexivity.
Defined.

Lemma error_key_is_failure_witness :
  call_huggingface
    (world_answering
       (Ret (VDict [("choices", VList [VDict [("text", VStr "X")]]);
                    ("error", VList [VStr "loading"; VInt 503])])))
    "p" "hf_demo" "org/model" []
  = (Ret (false, VStr "HF error: ['loading', 503]"),
     [Post (hf_request "p" "hf_demo" "org/model")]).
Proof.
  apply (error_key_is_failure
           (world_answering
              (Ret (VDict [("choices", VList [VDict [("text", VStr "X")]]);
                           ("error", VList [VStr "loading"; VInt 503])])))
           "p" "hf_demo" "org/model" []
           (mk_response 200
              (Ret (VDict [("choices", VList [VDict [("text", VStr "X")]]);
                           ("error", VList [VStr "loading"; VInt 503])]))
              EmptyString)
           [("choices", VList [VDict [("text", VStr "X")]]);
            ("error", VList [VStr "loading"; VInt 503])]
           (VList [VStr "loading"; VInt 503]));
    reflexivity.
Defined.

Lemma first_choice_text_is_success_witness :
  call_huggingface
    (world_answering
       (Ret (VDict [("choices", VList [VDict [("text", VStr "X")]])])))
    "p" "hf_demo" "org/model" []
  = (Ret (true, VStr "X"), [Post (hf_request "p" "hf_demo" "org/model")]).
Proof.
  apply (first_choice_text_is_success
           (world_answering
              (Ret (VDict [("choices", VList [VDict [("text", VStr "X")]])])))
           "p" "hf_demo" "org/model" []
           (mk_response 200
              (Ret (VDict [("choices", VList [VDict [("text", VStr "X")]])]))
              EmptyString)
           [("choices", VList [VDict [("text", VStr "X")]])]
           [("text", VStr "X")] [] (VStr "X"));
    reflexivity.
Defined.

Lemma other_body_is_stringified_witness :
  call_huggingface (world_answering (Ret (VInt 42)))
    "p" "hf_demo" "org/model" []
  = (Ret (true, VStr "42"), [Post (hf_request "p" "hf_demo" "org/model")]).
Proof.
  apply (other_body_is_stringified (world_answering (Ret (VInt 42)))
           "p" "hf_demo" "org/model" []
           (mk_response 200 (Ret (VInt 42)) EmptyString) (VInt 42));
    [reflexivity | reflexivity | reflexivity | reflexivity | discriminate].
Defined.

(** The script of [world_second_fallback]: among the models before the
    second one, only the first is asked, and it cannot be reached. *)
Ltac first_fallback_refused :=
  let p1 := fresh "p1" in
  let Hsplit := fresh "Hsplit" in
  intros p1 ? ? Hsplit;
  destruct p1 as [|? [|? ?]]; cbn in Hsplit; inversion Hsplit; subst;
  exact I.

Lemma fallback_skips_to_first_200_witness :
  call_huggingface
    (world_second_fallback
       (Ret (VDict [("generated_text", VInt 7); ("error", VStr "ignored")])))
    "p" "hf_demo" "org/model" []
  = (Ret (true, VInt 7),
     [Post (hf_request "p" "hf_demo" "org/model");
      Post (hf_request "p" "hf_demo" "gpt2");
      Post (hf_request "p" "hf_demo" "bigscience/bloom-560m")]).
Proof.
  apply (fallback_skips_to_first_200
           (world_second_fallback
              (Ret (VDict [("generated_text", VInt 7);
                           ("error", VStr "ignored")])))
           "p" "hf_demo" "org/model" [] not_found
           (mk_response 200
              (Ret (VDict [("generated_text", VInt 7);
                           ("error", VStr "ignored")]))
              EmptyString)
           ["gpt2"] "bigscience/bloom-560m" ["facebook/opt-350m"]
           ltac:(reflexivity) ltac:(reflexivity) ltac:(reflexivity)
           ltac:(first_fallback_refused) ltac:(reflexivity)
           ltac:(reflexivity)
           [("generated_text", VInt 7); ("error", VStr "ignored")] (VInt 7));
    reflexivity.
Defined.

Lemma fallback_undecodable_body_ends_loop_witness :
  call_huggingface
    (world_second_fallback (Raise (Error "Expecting value")))
    "p" "hf_demo" "org/model" []
  = (Ret (false,
          VStr "Parse error from fallback model bigscience/bloom-560m"),
     [Post (hf_request "p" "hf_demo" "org/model");
      Post (hf_request "p" "hf_demo" "gpt2");
      Post (hf_request "p" "hf_demo" "bigscience/bloom-560m")]).
Proof.
  apply (fallback_undecodable_body_ends_loop
           (world_second_fallback (Raise (Error "Expecting value")))
           "p" "hf_demo" "org/model" [] not_found
           (mk_response 200 (Raise (Error "Expecting value")) EmptyString)
           ["gpt2"] "bigscience/bloom-560m" ["facebook/opt-350m"]
           ltac:(reflexivity) ltac:(reflexivity) ltac:(reflexivity)
           ltac:(first_fallback_refused) ltac:(reflexivity)
           ltac:(reflexivity) (Error "Expecting value"));
    reflexivity.
Defined.

Lemma fallback_mapping_is_stringified_witness :
  call_huggingface
    (world_second_fallback
       (Ret (VDict [("error", VStr "blew up"); ("code", VInt 3)])))
    "p" "hf_demo" "org/model" []
  = (Ret (true, VStr "{'error': 'blew up', 'code': 3}"),
     [Post (hf_request "p" "hf_demo" "org/model");
      Post (hf_request "p" "hf_demo" "gpt2");
      Post (hf_request "p" "hf_demo" "bigscience/bloom-560m")]).
Proof.
  apply (fallback_mapping_is_stringified
           (world_second_fallback
              (Ret (VDict [("error", VStr "blew up"); ("code", VInt 3)])))
           "p" "hf_demo" "org/model" [] not_found
           (mk_response 200
              (Ret (VDict [("error", VStr "blew up"); ("code", VInt 3)]))
              EmptyString)
           ["gpt2"] "bigscience/bloom-560m" ["facebook/opt-350m"]
           ltac:(reflexivity) ltac:(reflexivity) ltac:(reflexivity)
           ltac:(first_fallback_refused) ltac:(reflexivity)
           ltac:(reflexivity)
           [("error", VStr "blew up"); ("code", VInt 3)]);
    reflexivity.
Defined.

Lemma blank_override_disables_fallback_witness :
  call_huggingface world_blank_fallbacks "p" "hf_demo" "org/model" []
  = (Ret (false, VStr "Error 404: {'error': 'Not Found'}"),
     [Post (hf_request "p" "hf_demo" "org/model")]).
Proof.
  apply (blank_override_disables_fallback world_blank_fallbacks
           "p" "hf_demo" "org/model" " , ," [] not_found);
    [reflexivity | discriminate | reflexivity | reflexivity | reflexivity].
Defined.

Lemma client_constructor_error_is_failure_witness :
  call_openai (world_chat sdk_broken) "p" "sk-demo" "gpt-3.5-turbo" []
  = (Ret (false, VStr "The api_key client option must be set"), []).
Proof.
  apply (client_constructor_error_is_failure (world_chat sdk_broken)
           sdk_broken "p" "sk-demo" "gpt-3.5-turbo" [] eq_refl
           (Error "The api_key client option must be set")).
  reflexivity.
Defined.

Lemma chat_call_error_is_failure_without_retry_witness :
  call_openai (world_chat (sdk_answering (Raise (Error "Rate limit reached"))))
    "p" "sk-demo" "gpt-3.5-turbo" []
  = (Ret (false, VStr "Rate limit reached"),
     [ChatCreate "sk-demo" (chat_request "p" "gpt-3.5-turbo")]).
Proof.
  apply (chat_call_error_is_failure_without_retry
           (world_chat (sdk_answering (Raise (Error "Rate limit reached"))))
           (sdk_answering (Raise (Error "Rate limit reached")))
           "p" "sk-demo" "gpt-3.5-turbo" [] eq_refl
           (Error "Rate limit reached"));
    reflexivity.
Defined.

Lemma completion_is_read_in_three_tries_witness :
  call_openai (world_chat (sdk_answering (Ret completion_opaque)))
    "p" "sk-demo" "gpt-3.5-turbo" []
  = (Ret (true, VStr "<response>"),
     [ChatCreate "sk-demo" (chat_request "p" "gpt-3.5-turbo")]).
Proof.
  apply (completion_is_read_in_three_tries
           (world_chat (sdk_answering (Ret completion_opaque)))
           (sdk_answering (Ret completion_opaque))
           "p" "sk-demo" "gpt-3.5-turbo" [] eq_refl completion_opaque);
    reflexivity.
Defined.

Lemma falsy_code_is_400_witness :
  generate_docs world_both request_zero_code []
  = (Ret (mk_reply (VDict [("error", VStr "No code provided")]) 400), []).
Proof.
  apply (falsy_code_is_400 world_both request_zero_code [] (VInt 0));
    reflexivity.
Defined.

Lemma valid_request_goes_to_configured_model_witness :
  ∃ k : nat,
    snd (generate_docs world_both request_with_code [])
    = Post (hf_request (build_prompt (VStr "x = 1")) "hf_demo" "org/model")
      :: fallback_posts (build_prompt (VStr "x = 1")) "hf_demo"
           (take k (fallback_models world_both)).
Proof.
  apply (valid_request_goes_to_configured_model world_both request_with_code
           [] (VStr "x = 1") "hf_demo");
    reflexivity.
Defined.

Lemma valid_request_goes_to_chat_model_witness :
  snd (generate_docs (world_chat (sdk_answering (Ret completion_attr)))
         request_with_code [])
  = [ChatCreate "sk-demo"
       (chat_request (build_prompt (VStr "x = 1")) "gpt-3.5-turbo")].
Proof.
  apply (valid_request_goes_to_chat_model
           (world_chat (sdk_answering (Ret completion_attr)))
           request_with_code [] (VStr "x = 1") "sk-demo"
           (sdk_answering (Ret completion_attr)));
    reflexivity.
Defined.

Lemma list_of_scalars_is_parse_error_witness :
  ∃ msg : string,
    call_huggingface (world_answering (Ret (VList [VInt 1; VInt 2])))
      "p" "hf_demo" "org/model" []
    = (Ret (false, VStr ("Parse error: " +:+ msg)),
       [Post (hf_request "p" "hf_demo" "org/model")]).
Proof.
  apply (list_of_scalars_is_parse_error
           (world_answering (Ret (VList [VInt 1; VInt 2])))
           "p" "hf_demo" "org/model" []
           (mk_response 200 (Ret (VList [VInt 1; VInt 2])) EmptyString)
           (VInt 1) [VInt 2]);
    reflexivity.
Defined.

(** ** The prompt the view passes on *)

(** C9. For every non-empty code text [C], the prompt that
    [generate_docs] builds for a request carrying [C] holds [C]
    literally and holds the fixed instruction text.  That prompt is
    what the view hands to the provider it selects: it is the
    ["inputs"] of the first request to the inference router, and the
    user message of the chat call. *)
Theorem dispatcher_prompt_holds_code_and_instruction
    (w : World) (request : FlaskRequest) (C : string) (tr : list Event) :
  C ≠ EmptyString →
  code_field request = Some (VStr C) →
  ∃ prompt : string,
    occurs_in C prompt
    ∧ occurs_in instruction_text prompt
    ∧ is_substring C prompt = true
    ∧ is_substring instruction_text prompt = true
    ∧ generate_docs w request tr
      = match matching_key (environ w !! "HUGGINGFACE_API_KEY") "hf_" with
        | Some hf_key =>
            match call_huggingface w prompt hf_key
                    (default "google/flan-t5-large"
                       (environ w !! "HUGGINGFACE_MODEL")) tr with
            | (Ret out, tr') => (Ret (to_reply out), tr')
            | (Raise e, tr') =>
                (Ret (jsonify_error (VStr (str_exn e)) 500), tr')
            end
        | None =>
            match matching_key (environ w !! "OPENAI_API_KEY") "sk-" with
            | Some openai_key =>
                match call_openai w prompt openai_key "gpt-3.5-turbo" tr with
                | (Ret out, tr') => (Ret (to_reply out), tr')
                | (Raise e, tr') =>
                    (Ret (jsonify_error (VStr (str_exn e)) 500), tr')
                end
            | None => (Ret (jsonify_error (VStr no_key_message) 400), tr)
            end
        end
    ∧ (∀ hf_key : string,
          matching_key (environ w !! "HUGGINGFACE_API_KEY") "hf_"
          = Some hf_key →
          ∃ later : list Event,
            snd (generate_docs w request tr)
            = (tr ++ Post (mk_request
                             ("https://router.huggingface.co/hf-inference/"
                              +:+ default "google/flan-t5-large"
                                    (environ w !! "HUGGINGFACE_MODEL"))
                             [("Authorization", "Bearer " +:+ hf_key);
                              ("Accept", "application/json")]
                             (VDict
                                [("inputs", VStr prompt);
                                 ("options",
                                  VDict [("wait_for_model", VBool true)]);
                                 ("parameters",
                                  VDict [("max_new_tokens", VInt 512)])])
                             60)
                  :: later)%list)
    ∧ (∀ (openai_key : string) (sdk : Sdk),
          matching_key (environ w !! "HUGGINGFACE_API_KEY") "hf_" = None →
          matching_key (environ w !! "OPENAI_API_KEY") "sk-"
          = Some openai_key →
          OpenAI w = Some sdk →
          new_client sdk openai_key = Ret tt →
          snd (generate_docs w request tr)
          = (tr ++ [ChatCreate openai_key
                      (mk_chat "gpt-3.5-turbo"
                         [[("role", "system"); ("content", system_message)];
                          [("role", "user"); ("content", prompt)]])])%list).
Proof.
  intros Hne Hcode.
  assert (Htruthy : truthy (VStr C) = true).
  { cbn. apply String.eqb_neq in Hne. now rewrite Hne. }
  exists (build_prompt (VStr C)).
  destruct (build_prompt_holds_code C) as (HC & HI & HCin & HIin).
  pose proof (generate_docs_valid w request (VStr C) tr Hcode Htruthy)
    as Hrun.
  repeat split; try assumption.
  - intros hf_key Hkey. rewrite Hrun, Hkey.
    destruct (call_huggingface_trace w (build_prompt (VStr C)) hf_key
                (default "google/flan-t5-large"
                   (environ w !! "HUGGINGFACE_MODEL")) tr)
      as (k & _ & Htrace).
    eexists.
    destruct (call_huggingface w _ _ _ tr) as [[out|e] tr']; exact Htrace.
  - intros openai_key sdk Hhf Hkey Hsdk Hnew. rewrite Hrun, Hhf, Hkey.
    pose proof (call_openai_trace w (build_prompt (VStr C)) openai_key
                  "gpt-3.5-turbo" tr) as Htrace.
    rewrite Hsdk, Hnew in Htrace.
    destruct (call_openai w _ _ _ tr) as [[out|e] tr']; exact Htrace.
Qed.

Lemma dispatcher_prompt_holds_code_and_instruction_witness :
  ∃ prompt : string,
    occurs_in "x = 1" prompt
    ∧ occurs_in instruction_text prompt
    ∧ is_substring "x = 1" prompt = true
    ∧ is_substring instruction_text prompt = true
    ∧ generate_docs world_both request_with_code []
      = match call_huggingface world_both prompt "hf_demo" "org/model" [] with
        | (Ret out, tr') => (Ret (to_reply out), tr')
        | (Raise e, tr') => (Ret (jsonify_error (VStr (str_exn e)) 500), tr')
        end.
Proof.
  destruct (dispatcher_prompt_holds_code_and_instruction world_both
              request_with_code "x = 1" [] ltac:(discriminate) eq_refl)
    as (prompt & HC & HI & HCin & HIin & Hrun & _).
  exists prompt. repeat split; assumption.
Defined.

(** ** Outcomes of the provider clients *)



